(** * BacktestEngine: a shallow embedding of inv_trader/backtest/engine.pyx

    The engine drives a portfolio of strategies over historical data.  Its
    collaborators (data client, execution client, account, portfolio, trader
    and strategies) live in other modules of the repository; here they are an
    interface ([Components]) whose operations transform one shared [World],
    because they alias each other: a tick handled by the data client reaches a
    strategy, whose order reaches the execution client, whose fill reaches
    the portfolio and the account.

    What the engine itself owns is modelled as the code has it: the wall
    clock ([LiveClock]), the test clock (a [TestClock] object in a store of
    clock objects, so that sharing and separation of clocks can be stated),
    the C int iteration counter, and the control flow of [__init__],
    [change_strategies], [run], [reset] and [dispose].

    Logging (headers, footers, the log store) is presentation only and is
    left out; datetimes and timedeltas are integers (a count of the finest
    time unit), ordered and added as in the source.  The collaborators'
    operations are total: an exception raised inside one of them would end
    [run] where it is raised, and is not modelled.  The two
    [Precondition.list_type] checks of the constructor and of
    [change_strategies] are what the types of the arguments say here. *)

From stdpp Require Import gmap strings list.
From Stdlib Require Import ZArith QArith Lia.

Local Open Scope Z_scope.

(** ** Primitive data *)

Definition datetime : Type := Z.
Definition timedelta : Type := Z.

Definition INT_MIN : Z := -2147483648.
Definition wrap_int (z : Z) : Z := (z - INT_MIN) mod 4294967296 + INT_MIN.

Inductive Exception : Type :=
| ValueError (description : string)
| IndexError
| AssertionError.

Inductive Outcome : Type :=
| Returned
| Raised (exn : Exception).

(** [Precondition.true(predicate, description)] raises [ValueError] when the
    predicate is false. *)
Definition Precondition_true (predicate : bool) (description : string)
  : option Exception :=
  if predicate then None else Some (ValueError description).

(** The error the specification calls InvalidRange is the [ValueError] of the
    three range preconditions of [run]. *)
Definition InvalidRange (exn : Exception) : bool :=
  match exn with
  | ValueError d =>
      bool_decide (d = "start < stop"%string) ||
      bool_decide (d = "start >= first_timestamp"%string) ||
      bool_decide (d = "stop <= last_timestamp"%string)
  | _ => false
  end.

(** ** The wall clock

    [LiveClock.time_now()] reads real time: an input of the program.  The
    n-th reading is [wall n]. *)
Record LiveClock : Type := mkLiveClock {
  wall : nat -> datetime;
  reads : nat
}.

Definition LiveClock_time_now (c : LiveClock) : datetime * LiveClock :=
  (wall c (reads c), mkLiveClock (wall c) (S (reads c))).

Definition LiveClock_get_delta (c : LiveClock) (t : datetime)
  : timedelta * LiveClock :=
  let '(now, c') := LiveClock_time_now c in (now - t, c').

Record BacktestConfig : Type := mkBacktestConfig {
  starting_capital : Z;
  commission_rate_bp : Z;
  account_currency : string;
  log_to_file : bool
}.

(** ** The collaborators

    Every operation receives the time on the shared test clock as its first
    argument [now]: the collaborators were constructed with
    [clock=self.test_clock] and may read it.  [iterate_ticks(time)] is taken
    as one call that returns the ticks of the pass in order, [.items()] of
    [get_next_minute_bars(time)] as a list of pairs. *)
Class Components : Type := {
  Instrument : Type;
  Symbol : Type;
  Tick : Type;
  Bar : Type;
  BarBatch : Type;
  MarketData : Type;
  FillModel : Type;
  TradeStrategy : Type;
  Account : Type;
  Fill : Type;
  World : Type;
  Tick_timestamp : Tick -> datetime;
  (* TestClock() *)
  TestClock_initial : datetime;
  (* Account(...), Portfolio(...), BacktestDataClient(...), BacktestExecClient(...) *)
  World_init : datetime -> BacktestConfig -> list Instrument ->
               MarketData -> MarketData -> MarketData -> FillModel -> World;
  (* Trader('BACKTEST', strategies, ...) *)
  Trader_init : datetime -> list TradeStrategy -> World -> World;
  (* observations *)
  account : World -> Account;
  fills : World -> list Fill;
  (* data client *)
  use_ticks : World -> bool;
  data_minute_index : World -> list datetime;
  set_initial_iteration : datetime -> datetime -> timedelta -> World -> World;
  get_next_minute_bars :
    datetime -> datetime -> World -> list (Symbol * (Bar * Bar)) * World;
  iterate_ticks : datetime -> datetime -> World -> list Tick * World;
  data_process_tick : datetime -> Tick -> World -> World;
  iterate_bars : datetime -> datetime -> World -> BarBatch * World;
  data_process_bars : datetime -> BarBatch -> World -> World;
  data_reset : datetime -> World -> World;
  (* execution client *)
  change_fill_model : datetime -> FillModel -> World -> World;
  exec_process_bars : datetime -> Symbol -> Bar -> Bar -> World -> World;
  exec_process_tick : datetime -> Tick -> World -> World;
  exec_reset : datetime -> World -> World;
  (* trader and strategies *)
  trader_change_strategies : datetime -> list TradeStrategy -> World -> World;
  trader_start : datetime -> World -> World;
  trader_stop : datetime -> World -> World;
  trader_reset : datetime -> World -> World;
  trader_dispose : datetime -> World -> World;
  strategy_iterate : datetime -> TradeStrategy -> datetime -> World -> World
}.

Section Engine.
Context `{C : Components}.

(** A strategy as the trader holds it: the user's object and the clock object
    the engine gave it. *)
Record Strategy : Type := mkStrategy {
  logic : TradeStrategy;
  strategy_clock : nat
}.

(** Which clock object each collaborator was constructed with. *)
Record ClockRefs : Type := mkClockRefs {
  portfolio_clock : nat;
  data_client_clock : nat;
  exec_client_clock : nat;
  trader_clock : nat
}.

Record BacktestEngine : Type := mkBacktestEngine {
  config : BacktestConfig;
  clock : LiveClock;
  created_time : datetime;
  time_to_initialize : timedelta;
  test_clock : nat;                 (* the TestClock object, by identity *)
  clocks : gmap nat datetime;       (* every TestClock object and its time *)
  clock_history : list datetime;    (* the engine's test_clock.set_time calls *)
  iteration : Z;
  instruments : list Instrument;
  clock_refs : ClockRefs;
  world : World;
  strategies : list Strategy        (* trader.strategies *)
}.

Definition with_clock (c : LiveClock) (e : BacktestEngine) : BacktestEngine :=
  mkBacktestEngine (config e) c (created_time e) (time_to_initialize e)
    (test_clock e) (clocks e) (clock_history e) (iteration e)
    (instruments e) (clock_refs e) (world e) (strategies e).

Definition with_world (w : World) (e : BacktestEngine) : BacktestEngine :=
  mkBacktestEngine (config e) (clock e) (created_time e) (time_to_initialize e)
    (test_clock e) (clocks e) (clock_history e) (iteration e)
    (instruments e) (clock_refs e) w (strategies e).

Definition with_iteration (i : Z) (e : BacktestEngine) : BacktestEngine :=
  mkBacktestEngine (config e) (clock e) (created_time e) (time_to_initialize e)
    (test_clock e) (clocks e) (clock_history e) i
    (instruments e) (clock_refs e) (world e) (strategies e).

Definition with_strategies (ss : list Strategy) (h : gmap nat datetime)
    (e : BacktestEngine) : BacktestEngine :=
  mkBacktestEngine (config e) (clock e) (created_time e) (time_to_initialize e)
    (test_clock e) h (clock_history e) (iteration e)
    (instruments e) (clock_refs e) (world e) ss.

(** [self.test_clock.time_now()] *)
Definition time_now (e : BacktestEngine) : datetime :=
  default 0 (clocks e !! test_clock e).

(** [self.test_clock.set_time(t)] *)
Definition set_time (t : datetime) (e : BacktestEngine) : BacktestEngine :=
  mkBacktestEngine (config e) (clock e) (created_time e) (time_to_initialize e)
    (test_clock e) (<[test_clock e := t]> (clocks e))
    (clock_history e ++ [t]) (iteration e)
    (instruments e) (clock_refs e) (world e) (strategies e).

(** A collaborator's method called at the current test-clock time. *)
Definition call (f : datetime -> World -> World) (e : BacktestEngine)
  : BacktestEngine :=
  with_world (f (time_now e) (world e)) e.

(** [TestClock()]: a new clock object, distinct from every existing one. *)
Definition TestClock_new (h : gmap nat datetime) : nat * gmap nat datetime :=
  let id := fresh (dom h) in (id, <[id := TestClock_initial]> h).

(** [for strategy in strategies: strategy.change_clock(TestClock()); ...]:
    every strategy receives a clock object of its own, newly created. *)
Fixpoint change_clocks (ss : list TradeStrategy) (h : gmap nat datetime)
  : list Strategy * gmap nat datetime :=
  match ss with
  | [] => ([], h)
  | s :: rest =>
      let '(id, h1) := TestClock_new h in
      let '(rest', h2) := change_clocks rest h1 in
      (mkStrategy s id :: rest', h2)
  end.

Definition _change_strategy_clocks_and_loggers (ss : list TradeStrategy)
    (e : BacktestEngine) : BacktestEngine :=
  let '(ss', h) := change_clocks ss (clocks e) in
  with_strategies ss' h e.

(** [BacktestEngine.__init__]; [w] is the real time source behind
    [LiveClock()]. *)
Definition BacktestEngine_init (w : nat -> datetime)
    (instruments0 : list Instrument)
    (data_ticks data_bars_bid data_bars_ask : MarketData)
    (strategies0 : list TradeStrategy)
    (fill_model : FillModel) (config0 : BacktestConfig) : BacktestEngine :=
  let clock0 := mkLiveClock w 0 in
  let '(created, clock1) := LiveClock_time_now clock0 in
  (* self.test_clock = TestClock(); self.test_clock.set_time(self.clock.time_now()) *)
  let '(tc, h) := TestClock_new ∅ in
  let '(now, clock2) := LiveClock_time_now clock1 in
  let h0 : gmap nat datetime := <[tc := now]> h in
  let w0 := World_init now config0 instruments0 data_ticks data_bars_bid
              data_bars_ask fill_model in
  let '(ss, h1) := change_clocks strategies0 h0 in
  let w1 := Trader_init now strategies0 w0 in
  let '(delta, clock3) := LiveClock_get_delta clock2 created in
  mkBacktestEngine config0 clock3 created delta tc h1 [now] 0
    instruments0 (mkClockRefs tc tc tc tc) w1 ss.


(** ** The main loop *)

Inductive Call : Type :=
| ExecProcessBars (symbol : Symbol) (bid ask : Bar)
| ExecProcessTick (tick : Tick)
| ClockSetTime (t : datetime)
| StrategyIterate (s : TradeStrategy) (t : datetime)
| DataProcessTick (tick : Tick)
| DataProcessBars (bars : BarBatch).

(** One pass of the [while] body, as it happened. *)
Record Step : Type := mkStep {
  step_time : datetime;
  step_mode : bool;                              (* use_ticks on entry *)
  step_minute_bars : list (Symbol * (Bar * Bar)); (* get_next_minute_bars(time).items() *)
  step_ticks : list Tick;                        (* iterate_ticks(time) *)
  step_bars : BarBatch;                          (* iterate_bars(time) *)
  step_calls : list Call
}.

(** [for symbol, bid_ask_bars in ...items(): self.exec_client.process_bars(...)] *)
Fixpoint process_minute_bars (items : list (Symbol * (Bar * Bar)))
    (e : BacktestEngine) : BacktestEngine * list Call :=
  match items with
  | [] => (e, [])
  | (symbol, bid_ask_bars) :: rest =>
      let e1 := call (fun now =>
                  exec_process_bars now symbol bid_ask_bars.1 bid_ask_bars.2) e in
      let '(e2, cs) := process_minute_bars rest e1 in
      (e2, ExecProcessBars symbol bid_ask_bars.1 bid_ask_bars.2 :: cs)
  end.

(** [for strategy in self.trader.strategies: strategy.iterate(tick.timestamp)] *)
Fixpoint iterate_strategies (ss : list Strategy) (t : datetime)
    (e : BacktestEngine) : BacktestEngine * list Call :=
  match ss with
  | [] => (e, [])
  | s :: rest =>
      let e1 := call (fun now => strategy_iterate now (logic s) t) e in
      let '(e2, cs) := iterate_strategies rest t e1 in
      (e2, StrategyIterate (logic s) t :: cs)
  end.

(** The body of [for tick in self.data_client.iterate_ticks(time)]. *)
Definition process_one_tick (tick : Tick) (e : BacktestEngine)
  : BacktestEngine * list Call :=
  let e1 := set_time (Tick_timestamp tick) e in
  let '(e2, c2) :=
    if use_ticks (world e1)
    then (call (fun now => exec_process_tick now tick) e1, [ExecProcessTick tick])
    else (e1, []) in
  let '(e3, c3) := iterate_strategies (strategies e2) (Tick_timestamp tick) e2 in
  let e4 := call (fun now => data_process_tick now tick) e3 in
  (e4, ClockSetTime (Tick_timestamp tick) :: c2 ++ c3 ++ [DataProcessTick tick]).

Fixpoint process_ticks (ticks : list Tick) (e : BacktestEngine)
  : BacktestEngine * list Call :=
  match ticks with
  | [] => (e, [])
  | tick :: rest =>
      let '(e1, c1) := process_one_tick tick e in
      let '(e2, c2) := process_ticks rest e1 in
      (e2, c1 ++ c2)
  end.

(** The body of [while time <= stop], up to and including
    [self.iteration += 1]. *)
Definition loop_body (time : datetime) (e : BacktestEngine)
  : BacktestEngine * Step :=
  let mode := use_ticks (world e) in
  let '(e1, items, c1) :=
    if negb mode
    then
      let '(items, w) := get_next_minute_bars (time_now e) time (world e) in
      let '(e', cs) := process_minute_bars items (with_world w e) in
      (e', items, cs)
    else (e, [], []) in
  let '(ticks, w2) := iterate_ticks (time_now e1) time (world e1) in
  let '(e3, c3) := process_ticks ticks (with_world w2 e1) in
  let e4 := set_time time e3 in
  let '(bars, w5) := iterate_bars (time_now e4) time (world e4) in
  let e6 := call (fun now => data_process_bars now bars) (with_world w5 e4) in
  let e7 := with_iteration (wrap_int (iteration e6 + 1)) e6 in
  (e7, mkStep time mode items ticks bars
         (c1 ++ c3 ++ [ClockSetTime time; DataProcessBars bars])).

(** [while time <= stop: ...; time += time_step].  The loop has no bound of
    its own, so the model takes fuel: [None] means the fuel ran out before
    the loop condition became false. *)
Fixpoint main_loop (fuel : nat) (time stop : datetime) (time_step : timedelta)
    (e : BacktestEngine) : option (BacktestEngine * list Step) :=
  match fuel with
  | O => None
  | S fuel' =>
      if time <=? stop then
        let '(e1, st) := loop_body time e in
        match main_loop fuel' (time + time_step) stop time_step e1 with
        | Some (e2, sts) => Some (e2, st :: sts)
        | None => None
        end
      else Some (e, [])
  end.

(** [self.data_client.data_minute_index[0]] and [...[len(...) - 1]] *)
Definition first_timestamp (e : BacktestEngine) : option datetime :=
  head (data_minute_index (world e)).

Definition last_timestamp (e : BacktestEngine) : option datetime :=
  last (data_minute_index (world e)).

(** The three preconditions of [run], in order. *)
Definition run_preconditions (e : BacktestEngine) (start stop : datetime)
  : option Exception :=
  match Precondition_true (start <? stop) "start < stop" with
  | Some exn => Some exn
  | None =>
      match first_timestamp e with
      | None => Some IndexError
      | Some first =>
          match Precondition_true (first <=? start) "start >= first_timestamp" with
          | Some exn => Some exn
          | None =>
              match last_timestamp e with
              | None => Some IndexError
              | Some lst => Precondition_true (stop <=? lst) "stop <= last_timestamp"
              end
          end
      end
  end.

(** [_backtest_header]: the execution resolution it reports. *)
Definition execution_res (e : BacktestEngine) : string :=
  if use_ticks (world e) then "TICKS" else "1-MINUTE BARS".

(** The set-up of [run], from the change of fill model to
    [set_initial_iteration]; returns [run_started] and the engine. *)
Definition run_setup (e : BacktestEngine) (start : datetime)
    (time_step : timedelta) (fill_model : option FillModel)
  : datetime * BacktestEngine :=
  let e1 :=
    match fill_model with
    | Some fm => call (fun now => change_fill_model now fm) e
    | None => e
    end in
  (* run_started = self.clock.time_now() *)
  let '(run_started, c2) := LiveClock_time_now (clock e1) in
  let e2 := with_clock c2 e1 in
  let time := start in
  let e3 := set_time time e2 in
  let e4 := _change_strategy_clocks_and_loggers (map logic (strategies e3)) e3 in
  let e5 := call trader_start e4 in
  (* "Also sets clock to start time": the shared clock already shows it *)
  let e6 := call (fun now => set_initial_iteration now start time_step) e5 in
  (run_started, e6).

(** [BacktestEngine.run].  The result carries the outcome, the engine as the
    call left it, and the passes of the main loop. *)
Definition run (fuel : nat) (e : BacktestEngine) (start stop : datetime)
    (time_step : timedelta) (fill_model : option FillModel)
    (print_log_store : bool)
  : option (Outcome * BacktestEngine * list Step) :=
  match run_preconditions e start stop with
  | Some exn => Some (Raised exn, e, [])
  | None =>
      let '(run_started, e6) := run_setup e start time_step fill_model in
      (* assert(self.data_client.time_now() == start), and for exec_client *)
      if negb (time_now e6 =? start) then Some (Raised AssertionError, e6, [])
      else
        match main_loop fuel start stop time_step e6 with
        | None => None
        | Some (e7, steps) =>
            let e8 := call trader_stop e7 in
            (* _backtest_footer: self.clock.get_delta(run_started) *)
            let '(_, c9) := LiveClock_get_delta (clock e8) run_started in
            Some (Returned, with_clock c9 e8, steps)
        end
  end.

(** [BacktestEngine.reset] *)
Definition reset (e : BacktestEngine) : BacktestEngine :=
  let e1 := with_iteration 0 e in
  let e2 := call data_reset e1 in
  let e3 := call exec_reset e2 in
  call trader_reset e3.


End Engine.

(** ** Vocabulary for the properties *)

Section Properties.
Context `{C : Components}.



Definition clock_sets (cs : list Call) : list datetime :=
  flat_map (fun c => match c with ClockSetTime t => [t] | _ => [] end) cs.

(** What one tick hands to the strategies. *)
Definition tick_to_strategies (ss : list TradeStrategy) (tick : Tick)
  : list Call :=
  map (fun s => StrategyIterate s (Tick_timestamp tick)) ss
  ++ [DataProcessTick tick].

Definition bars_to_exec (items : list (Symbol * (Bar * Bar))) : list Call :=
  map (fun it => ExecProcessBars it.1 it.2.1 it.2.2) items.

(** The calls of one tick and of one pass of the loop, by mode. *)
Definition tick_calls (mode : bool) (ss : list TradeStrategy) (tick : Tick)
  : list Call :=
  ClockSetTime (Tick_timestamp tick)
  :: (if mode then [ExecProcessTick tick] else [])
  ++ tick_to_strategies ss tick.


(** The mode is selected at construction: no operation of a collaborator
    that the engine calls changes [use_ticks]. *)
Definition use_ticks_fixed : Prop :=
  (forall now fm w, use_ticks (change_fill_model now fm w) = use_ticks w) /\
  (forall now w, use_ticks (trader_start now w) = use_ticks w) /\
  (forall now s ts w, use_ticks (set_initial_iteration now s ts w) = use_ticks w) /\
  (forall now t w, use_ticks (get_next_minute_bars now t w).2 = use_ticks w) /\
  (forall now sy b a w, use_ticks (exec_process_bars now sy b a w) = use_ticks w) /\
  (forall now t w, use_ticks (iterate_ticks now t w).2 = use_ticks w) /\
  (forall now tk w, use_ticks (exec_process_tick now tk w) = use_ticks w) /\
  (forall now s t w, use_ticks (strategy_iterate now s t w) = use_ticks w) /\
  (forall now tk w, use_ticks (data_process_tick now tk w) = use_ticks w) /\
  (forall now t w, use_ticks (iterate_bars now t w).2 = use_ticks w) /\
  (forall now bs w, use_ticks (data_process_bars now bs w) = use_ticks w).

(** Construction and the change of fill model do not read the clock they are
    handed (which, before the first run, still shows real time). *)
Definition setup_reads_no_clock : Prop :=
  (forall n1 n2 cfg ins dt db da fm,
      World_init n1 cfg ins dt db da fm = World_init n2 cfg ins dt db da fm) /\
  (forall n1 n2 ss w, Trader_init n1 ss w = Trader_init n2 ss w) /\
  (forall n1 n2 fm w, change_fill_model n1 fm w = change_fill_model n2 fm w).






(** Consecutive values never decrease. *)
Definition monotonic (l : list datetime) : Prop :=
  forall i a b, l !! i = Some a -> l !! S i = Some b -> a <= b.

Fixpoint monotonicb (l : list datetime) : bool :=
  match l with
  | a :: (b :: _) as rest => (a <=? b) && monotonicb rest
  | _ => true
  end.

(** The ticks of a pass arrive in time order, none later than the pass's time
    and none earlier than the previous pass (or the start of the run). *)
Definition ticks_in_window (start : datetime) (time_step : timedelta)
    (st : Step) : bool :=
  let ts := map Tick_timestamp (step_ticks st) in
  monotonicb ts &&
  forallb (fun t => (Z.max start (step_time st - time_step) <=? t)
                    && (t <=? step_time st)) ts.

(** The test-clock assignments of one run: the set-up, then the loop. *)
Definition run_assignments (start : datetime) (steps : list Step)
  : list datetime :=
  start :: flat_map (fun st => clock_sets (step_calls st)) steps.

(** What a run leaves behind apart from readings of real time. *)
Definition observe (r : option (Outcome * BacktestEngine * list Step))
  : option (Outcome * World * list Fill * Account * Z * list Step) :=
  match r with
  | Some (o, e, steps) =>
      Some (o, world e, fills (world e), account (world e), iteration e, steps)
  | None => None
  end.


(** What the main loop never writes. *)
Definition frame (e : BacktestEngine) :=
  (config e, clock e, created_time e, time_to_initialize e, test_clock e,
   instruments e, clock_refs e, strategies e).

(** What the main loop reads of the engine. *)
Definition loop_inputs (e : BacktestEngine) :=
  (world e, strategies e, time_now e, iteration e).

(** What [run] adds after the loop: the trader is stopped, the wall clock is
    read for the footer. *)
Definition finished (e7 e' : BacktestEngine) : Prop :=
  world e' = trader_stop (time_now e7) (world e7) /\
  (config e', test_clock e', clocks e', clock_history e', iteration e',
   instruments e', clock_refs e', strategies e')
  = (config e7, test_clock e7, clocks e7, clock_history e7, iteration e7,
     instruments e7, clock_refs e7, strategies e7).



End Properties.

(** ** Portfolio and account *)

Module PortfolioModel.

Local Open Scope Q_scope.

(** Modelled from the spec: the data of section 3 that the portfolio works
    on (Fill, Position, Account), whose source (inv_trader/model,
    inv_trader/common/account, inv_trader/portfolio) is not among the files
    at hand.  Quantities are integers, signed by the side of the order;
    prices and money are rationals, so the arithmetic is exact. *)
Inductive Side : Type := Buy | Sell.

Record Fill : Type := mkFill {
  fill_id : nat;
  fill_order : nat;
  fill_instrument : string;
  fill_side : Side;
  fill_quantity : Z;
  fill_price : Q;
  fill_commission : Q;
  fill_timestamp : Z
}.

Record Position : Type := mkPosition {
  net_quantity : Z;
  average_price : Q
}.

Record Account : Type := mkAccount {
  balance : Q;
  realized_pnl : Q;
  total_commissions : Q
}.

Record Portfolio : Type := mkPortfolio {
  positions : gmap string Position;
  account : Account;
  seen_fills : gset nat
}.

Inductive ApplyResult : Type := Applied | DuplicateFill.

Definition signed_quantity (f : Fill) : Z :=
  match fill_side f with
  | Buy => fill_quantity f
  | Sell => (- fill_quantity f)%Z
  end.

Definition position_of (p : Portfolio) (instrument : string) : Position :=
  default (mkPosition 0 0) (positions p !! instrument).

(** Modelled from the spec: the weighted-average-price accounting of section
    4.5 for one fill against the position it meets (the portfolio's source
    is missing): when exposure grows, the new average price is ((old quantity
    x old average) + (signed fill quantity x fill price)) / new quantity;
    when it shrinks or reverses, PnL is realized against the prior average
    price. *)
Definition book (old : Position) (f : Fill) : Position * Q :=
  let q := signed_quantity f in
  let new_quantity := (net_quantity old + q)%Z in
  if (0 <=? net_quantity old * q)%Z then
    (* exposure grows: new average price, nothing realized *)
    (mkPosition new_quantity
       (Qred ((inject_Z (net_quantity old) * average_price old
               + inject_Z q * fill_price f) / inject_Z new_quantity)),
     0)
  else
    (* exposure shrinks or reverses: realize against the prior average *)
    let closed := Z.min (Z.abs q) (Z.abs (net_quantity old)) in
    let pnl := Qred ((fill_price f - average_price old)
                     * inject_Z (closed * Z.sgn (net_quantity old))) in
    let average :=
      if (Z.sgn new_quantity =? - Z.sgn (net_quantity old))%Z
      then fill_price f else average_price old in
    (mkPosition new_quantity average, pnl).

(** Modelled from the spec: the portfolio's [apply(Fill)] of section 4.5,
    whose source (inv_trader/portfolio) is not among the files at hand: a
    fill whose identifier was seen before is rejected with [DuplicateFill];
    any other fill updates its position by weighted-average-price accounting,
    books realized PnL against the account, and is remembered. *)
Definition apply (f : Fill) (p : Portfolio) : ApplyResult * Portfolio :=
  if bool_decide (fill_id f ∈ seen_fills p) then (DuplicateFill, p)
  else
    let '(pos, pnl) := book (position_of p (fill_instrument f)) f in
    let positions' :=
      if (net_quantity pos =? 0)%Z then delete (fill_instrument f) (positions p)
      else <[fill_instrument f := pos]> (positions p) in
    let account' :=
      mkAccount (Qred (balance (account p) + pnl))
                (Qred (realized_pnl (account p) + pnl))
                (Qred (total_commissions (account p) + fill_commission f)) in
    (Applied, mkPortfolio positions' account' ({[fill_id f]} ∪ seen_fills p)).

Definition opening (capital : Q) : Portfolio :=
  mkPortfolio ∅ (mkAccount capital 0 0) ∅.

End PortfolioModel.

(** ** A small concrete set of collaborators

    One instrument, prices as integers, a data client that hands out pending
    ticks up to the requested time, and an execution client that records
    what it is given.  It serves to run the engine on concrete inputs. *)

Module Sample.

Record SampleWorld : Type := mkSampleWorld {
  sw_use_ticks : bool;
  sw_index : list Z;
  sw_ticks : list (Z * Z);
  sw_pending : list (Z * Z);
  sw_fill_model : Z;
  sw_capital : Z;
  sw_fills : list (Z * Z);
  sw_balance : Z;
  sw_running : bool
}.

Definition with_pending (l : list (Z * Z)) (w : SampleWorld) : SampleWorld :=
  mkSampleWorld (sw_use_ticks w) (sw_index w) (sw_ticks w) l (sw_fill_model w)
    (sw_capital w) (sw_fills w) (sw_balance w) (sw_running w).

Definition with_fill_model (fm : Z) (w : SampleWorld) : SampleWorld :=
  mkSampleWorld (sw_use_ticks w) (sw_index w) (sw_ticks w) (sw_pending w) fm
    (sw_capital w) (sw_fills w) (sw_balance w) (sw_running w).

Definition with_running (b : bool) (w : SampleWorld) : SampleWorld :=
  mkSampleWorld (sw_use_ticks w) (sw_index w) (sw_ticks w) (sw_pending w)
    (sw_fill_model w) (sw_capital w) (sw_fills w) (sw_balance w) b.

Definition record_fill (now price : Z) (w : SampleWorld) : SampleWorld :=
  mkSampleWorld (sw_use_ticks w) (sw_index w) (sw_ticks w) (sw_pending w)
    (sw_fill_model w) (sw_capital w)
    (sw_fills w ++ [(now, price + sw_fill_model w)])
    (sw_balance w - (price + sw_fill_model w)) (sw_running w).

Definition clear_fills (w : SampleWorld) : SampleWorld :=
  mkSampleWorld (sw_use_ticks w) (sw_index w) (sw_ticks w) (sw_pending w)
    (sw_fill_model w) (sw_capital w) [] (sw_capital w) (sw_running w).

Definition due (t : Z) (w : SampleWorld) : bool :=
  bool_decide (t ∈ sw_index w).

#[export] Instance components : Components := {|
  Instrument := nat;
  Symbol := nat;
  Tick := Z * Z;
  Bar := Z;
  BarBatch := list Z;
  MarketData := list (Z * Z);
  FillModel := Z;
  TradeStrategy := nat;
  Account := Z;
  Fill := Z * Z;
  World := SampleWorld;
  Tick_timestamp := fst;
  TestClock_initial := 0;
  World_init := fun _ cfg _ dt db _ fm =>
    mkSampleWorld (negb (bool_decide (dt = []))) (map fst db) dt dt fm
      (starting_capital cfg) [] (starting_capital cfg) false;
  Trader_init := fun _ _ w => w;
  account := sw_balance;
  fills := sw_fills;
  use_ticks := sw_use_ticks;
  data_minute_index := sw_index;
  set_initial_iteration := fun _ start _ w =>
    with_pending (filter (fun tk => start <= tk.1) (sw_ticks w)) w;
  get_next_minute_bars := fun _ t w =>
    (if due t w then [(0%nat, (t, t))] else [], w);
  iterate_ticks := fun _ t w =>
    (filter (fun tk => tk.1 <= t) (sw_pending w),
     with_pending (filter (fun tk => t < tk.1) (sw_pending w)) w);
  data_process_tick := fun _ _ w => w;
  iterate_bars := fun _ t w => (if due t w then [t] else [], w);
  data_process_bars := fun _ _ w => w;
  data_reset := fun _ w => with_pending (sw_ticks w) w;
  change_fill_model := fun _ fm w => with_fill_model fm w;
  exec_process_bars := fun now _ bid _ w => record_fill now bid w;
  exec_process_tick := fun now tk w => record_fill now tk.2 w;
  exec_reset := fun _ w => clear_fills w;
  trader_change_strategies := fun _ _ w => w;
  trader_start := fun _ w => with_running true w;
  trader_stop := fun _ w => with_running false w;
  trader_reset := fun _ w => w;
  trader_dispose := fun _ w => w;
  strategy_iterate := fun _ _ _ w => w
|}.

Definition sample_config : BacktestConfig := mkBacktestConfig 10000 0 "USD" false.

Definition sample_ticks : list (Z * Z) := [(0, 50); (1, 51); (2, 52)].
Definition sample_bars : list (Z * Z) := [(0, 50); (1, 51); (2, 52); (3, 53)].

(** An engine built while the wall clock shows 100, in tick mode, with one
    strategy. *)
Definition engine : BacktestEngine :=
  BacktestEngine_init (fun _ => 100) [1%nat] sample_ticks sample_bars
    sample_bars [7%nat] 0 sample_config.

(** The same in bar mode (no tick data). *)
Definition bar_engine : BacktestEngine :=
  BacktestEngine_init (fun _ => 100) [1%nat] [] sample_bars sample_bars
    [7%nat] 0 sample_config.


(** The tick-mode engine after [run(0, 2)] with a step of 1. *)
Definition ran_engine : BacktestEngine :=
  match run 10 engine 0 2 1 None true with
  | Some (_, e', _) => e'
  | None => engine
  end.

Definition ran_steps : list Step :=
  match run 10 engine 0 2 1 None true with
  | Some (_, _, steps) => steps
  | None => []
  end.

(** The bar-mode engine after the same run with another fill model. *)
Definition bar_ran_engine : BacktestEngine :=
  match run 10 bar_engine 0 2 1 (Some 3) true with
  | Some (_, e', _) => e'
  | None => bar_engine
  end.

Definition bar_ran_steps : list Step :=
  match run 10 bar_engine 0 2 1 (Some 3) true with
  | Some (_, _, steps) => steps
  | None => []
  end.

(** A buy of 10 at 100 and a sell of 10 at 110. *)
Definition buy_fill : PortfolioModel.Fill :=
  PortfolioModel.mkFill 1 1 "AUDUSD" PortfolioModel.Buy 10 100 0 0.

Definition sell_fill : PortfolioModel.Fill :=
  PortfolioModel.mkFill 2 2 "AUDUSD" PortfolioModel.Sell 10 110 0 1.

End Sample.


(** * Properties of the engine *)

Section EngineFacts.
Context `{C : Components}.

Lemma time_now_set_time t e : time_now (set_time t e) = t.
Proof. unfold time_now, set_time; simpl. by rewrite lookup_insert_eq. Qed.

Lemma time_now_call f e : time_now (call f e) = time_now e.
Proof. reflexivity. Qed.

Lemma process_minute_bars_frame items e :
  let r := process_minute_bars items e in
  frame r.1 = frame e /\ iteration r.1 = iteration e /\
  clocks r.1 = clocks e /\ clock_history r.1 = clock_history e /\
  r.2 = bars_to_exec items.
Proof.
  revert e; induction items as [|[symbol bid_ask] rest IH]; intros e; simpl.
  - done.
  - specialize (IH (call (fun now => exec_process_bars now symbol bid_ask.1 bid_ask.2) e)).
    destruct (process_minute_bars rest _) as [e2 cs]; simpl in *.
    destruct IH as (-> & -> & -> & -> & ->). done.
Qed.

Lemma iterate_strategies_frame ss t e :
  let r := iterate_strategies ss t e in
  frame r.1 = frame e /\ iteration r.1 = iteration e /\
  clocks r.1 = clocks e /\ clock_history r.1 = clock_history e /\
  r.2 = map (fun s => StrategyIterate s t) (map logic ss).
Proof.
  revert e; induction ss as [|s rest IH]; intros e; simpl.
  - done.
  - specialize (IH (call (fun now => strategy_iterate now (logic s) t) e)).
    destruct (iterate_strategies rest t _) as [e2 cs]; simpl in *.
    destruct IH as (-> & -> & -> & -> & ->). done.
Qed.

Lemma clock_sets_app l1 l2 : clock_sets (l1 ++ l2) = clock_sets l1 ++ clock_sets l2.
Proof. unfold clock_sets. by rewrite flat_map_app. Qed.

Lemma clock_sets_strategies (ss : list TradeStrategy) t :
  clock_sets (map (fun s => StrategyIterate s t) ss) = [].
Proof. induction ss; simpl; auto. Qed.

Lemma clock_sets_bars items : clock_sets (bars_to_exec items) = [].
Proof. induction items; simpl; auto. Qed.

Lemma process_one_tick_frame tick e :
  let r := process_one_tick tick e in
  frame r.1 = frame e /\ iteration r.1 = iteration e /\
  time_now r.1 = Tick_timestamp tick /\
  clock_history r.1 = clock_history e ++ [Tick_timestamp tick] /\
  r.2 = tick_calls (use_ticks (world e)) (map logic (strategies e)) tick /\
  is_Some (clocks r.1 !! test_clock r.1).
Proof.
  unfold process_one_tick, tick_calls.
  set (e1 := set_time (Tick_timestamp tick) e).
  change (world e1) with (world e).
  set (r2 := if use_ticks (world e)
             then (call (fun now => exec_process_tick now tick) e1, [ExecProcessTick tick])
             else (e1, [])).
  assert (H2 : frame r2.1 = frame e /\ iteration r2.1 = iteration e /\
               clocks r2.1 = clocks e1 /\ clock_history r2.1 = clock_history e1 /\
               r2.2 = if use_ticks (world e) then [ExecProcessTick tick] else [])
    by (subst r2; destruct (use_ticks (world e)); done).
  destruct r2 as [e2 c2]; simpl in H2. destruct H2 as (Hf2 & Hi2 & Hc2 & Hh2 & ->).
  pose proof (iterate_strategies_frame (strategies e2) (Tick_timestamp tick) e2) as IH.
  destruct (iterate_strategies _ _ _) as [e3 c3]; simpl in IH.
  destruct IH as (Hf & Hi & Hc & Hh & ->).
  assert (Hs : strategies e2 = strategies e) by (by inversion Hf2).
  assert (Ht : test_clock e3 = test_clock e)
    by (rewrite Hf2 in Hf; by inversion Hf).
  simpl. split_and!.
  - etrans; [exact Hf|exact Hf2].
  - congruence.
  - unfold time_now; simpl. rewrite Hc, Hc2, Ht. subst e1; simpl.
    by rewrite lookup_insert_eq.
  - rewrite Hh, Hh2. done.
  - by rewrite Hs.
  - rewrite Hc, Hc2, Ht. subst e1; simpl. rewrite lookup_insert_eq. by eexists.
Qed.

Lemma clock_sets_tick_calls mode ss tick :
  clock_sets (tick_calls mode ss tick) = [Tick_timestamp tick].
Proof.
  unfold tick_calls, tick_to_strategies. simpl.
  rewrite !clock_sets_app, clock_sets_strategies. by destruct mode.
Qed.

Lemma process_ticks_frame ticks e :
  let r := process_ticks ticks e in
  frame r.1 = frame e /\ iteration r.1 = iteration e /\
  clock_history r.1 = clock_history e ++ map Tick_timestamp ticks /\
  clock_sets r.2 = map Tick_timestamp ticks /\
  time_now r.1 = default (time_now e) (last (map Tick_timestamp ticks)) /\
  (is_Some (clocks e !! test_clock e) -> is_Some (clocks r.1 !! test_clock r.1)).
Proof.
  revert e; induction ticks as [|tick rest IH]; intros e; simpl.
  - split_and!; try done. by rewrite app_nil_r.
  - pose proof (process_one_tick_frame tick e) as H1.
    destruct (process_one_tick tick e) as [e1 c1]; simpl in H1.
    destruct H1 as (Hf1 & Hi1 & Ht1 & Hh1 & -> & Hs1).
    specialize (IH e1). destruct (process_ticks rest e1) as [e2 c2].
    cbn [fst snd] in *.
    destruct IH as (Hf & Hi & Hh & Hc & Ht & Hs).
    split_and!; [| | | | |by auto].
    + congruence.
    + congruence.
    + rewrite Hh, Hh1, <- app_assoc. done.
    + rewrite clock_sets_app, clock_sets_tick_calls, Hc. done.
    + rewrite Ht, Ht1, last_cons.
      by destruct (last (map Tick_timestamp rest)).
Qed.

Lemma loop_body_frame time e :
  let r := loop_body time e in
  frame r.1 = frame e /\ iteration r.1 = wrap_int (iteration e + 1) /\
  time_now r.1 = time /\ step_time r.2 = time /\
  clock_history r.1
    = clock_history e ++ map Tick_timestamp (step_ticks r.2) ++ [time] /\
  clock_sets (step_calls r.2) = map Tick_timestamp (step_ticks r.2) ++ [time] /\
  (use_ticks (world e) = true -> step_minute_bars r.2 = []) /\
  is_Some (clocks r.1 !! test_clock r.1).
Proof.
  unfold loop_body; cbv zeta.
  assert (H1 : forall r1 : BacktestEngine * list (Symbol * (Bar * Bar)) * list Call,
    r1 = (if negb (use_ticks (world e))
          then let '(items, w) := get_next_minute_bars (time_now e) time (world e) in
               let '(e', cs) := process_minute_bars items (with_world w e) in
               (e', items, cs)
          else (e, [], [])) ->
    frame r1.1.1 = frame e /\ iteration r1.1.1 = iteration e /\
    clock_history r1.1.1 = clock_history e /\ clock_sets r1.2 = [] /\
    (use_ticks (world e) = true -> r1.1.2 = [])).
  { intros r1 ->. destruct (use_ticks (world e)); simpl negb; cbv iota; [done|].
    destruct (get_next_minute_bars _ _ _) as [items w].
    pose proof (process_minute_bars_frame items (with_world w e)) as P.
    destruct (process_minute_bars _ _) as [e' cs]. cbn [fst snd] in *.
    destruct P as (? & ? & ? & ? & ->). split_and!; try done.
    apply clock_sets_bars. }
  specialize (H1 _ eq_refl).
  destruct (if negb (use_ticks (world e)) then _ else _) as [[e1 items] c1].
  cbn [fst snd] in H1. destruct H1 as (Hf1 & Hi1 & Hh1 & Hc1 & Hb1).
  destruct (iterate_ticks _ _ _) as [ticks w2].
  pose proof (process_ticks_frame ticks (with_world w2 e1)) as P3.
  destruct (process_ticks _ _) as [e3 c3]. cbn [fst snd] in P3.
  destruct P3 as (Hf3 & Hi3 & Hh3 & Hc3 & _).
  destruct (iterate_bars _ _ _) as [bars w5].
  cbn [fst snd step_time step_ticks step_calls step_minute_bars].
  split_and!; [| | | | | |exact Hb1|
    simpl; rewrite lookup_insert_eq; by eexists].
  - change (frame e3 = frame e). etrans; [exact Hf3|exact Hf1].
  - simpl. change (iteration (with_world w2 e1)) with (iteration e1) in Hi3. congruence.
  - apply (time_now_set_time time e3).
  - done.
  - simpl. rewrite Hh3. simpl. rewrite Hh1, <- app_assoc. done.
  - rewrite !clock_sets_app, Hc1, Hc3. done.
Qed.

Lemma wrap_int_add a b : wrap_int (wrap_int a + b) = wrap_int (a + b).
Proof.
  unfold wrap_int. f_equal.
  replace ((a - INT_MIN) mod 4294967296 + INT_MIN + b - INT_MIN)
    with ((a - INT_MIN) mod 4294967296 + b) by lia.
  replace (a + b - INT_MIN) with ((a - INT_MIN) + b) by lia.
  by rewrite Zplus_mod_idemp_l.
Qed.


Lemma main_loop_frame fuel time stop time_step e e' steps :
  main_loop fuel time stop time_step e = Some (e', steps) ->
  frame e' = frame e /\
  iteration e' = match steps with
                 | [] => iteration e
                 | _ => wrap_int (iteration e + Z.of_nat (length steps))
                 end /\
  clock_history e'
    = clock_history e ++ flat_map (fun st => clock_sets (step_calls st)) steps /\
  (is_Some (clocks e !! test_clock e) -> is_Some (clocks e' !! test_clock e')).
Proof.
  revert time e e' steps; induction fuel as [|fuel IH]; intros time e e' steps; simpl; [done|].
  destruct (time <=? stop).
  - pose proof (loop_body_frame time e) as B.
    destruct (loop_body time e) as [e1 st]. cbn [fst snd] in B.
    destruct B as (Hf & Hi & _ & _ & Hh & Hc & _ & Hs).
    destruct (main_loop fuel _ _ _ e1) as [[e2 sts]|] eqn:E; [|done].
    intros [= <- <-]. apply IH in E as (Hf2 & Hi2 & Hh2 & Hs2).
    split_and!; [| | |by auto].
    + congruence.
    + rewrite Hi2, Hi. destruct sts as [|st2 sts]; [done|].
      rewrite wrap_int_add. f_equal. simpl length. lia.
    + rewrite Hh2, Hh. simpl. rewrite Hc, <- !app_assoc. done.
  - intros [= <- <-]. simpl. rewrite app_nil_r. done.
Qed.

(** The passes of the loop are at start, start + step, ... and none is past
    stop. *)
Lemma main_loop_times fuel time stop time_step e e' steps :
  main_loop fuel time stop time_step e = Some (e', steps) ->
  forall i st, steps !! i = Some st ->
    step_time st = time + Z.of_nat i * time_step /\ step_time st <= stop.
Proof.
  revert time e e' steps; induction fuel as [|fuel IH]; intros time e e' steps; simpl; [done|].
  destruct (time <=? stop) eqn:Hle.
  - pose proof (loop_body_frame time e) as B.
    destruct (loop_body time e) as [e1 st]. cbn [fst snd] in B.
    destruct B as (_ & _ & _ & Hst & _).
    destruct (main_loop fuel _ _ _ e1) as [[e2 sts]|] eqn:E; [|done].
    intros [= <- <-] [|i] st' Hl; simpl in Hl.
    + injection Hl as <-. lia.
    + destruct (IH _ _ _ _ E i st' Hl) as [-> ?]. lia.
  - intros [= <- <-] i st' Hl. done.
Qed.


(** With a step that is not positive the loop never ends. *)
Lemma main_loop_diverges fuel time stop time_step e :
  time_step <= 0 -> time <= stop ->
  main_loop fuel time stop time_step e = None.
Proof.
  intros Hneg. revert time e; induction fuel as [|fuel IH]; intros time e Hle; [done|].
  simpl. destruct (time <=? stop) eqn:E; [|lia].
  destruct (loop_body time e) as [e1 st]. rewrite IH; [done|lia].
Qed.

(** More fuel does not change a result. *)
Lemma main_loop_fuel fuel fuel' time stop time_step e r :
  main_loop fuel time stop time_step e = Some r -> (fuel <= fuel')%nat ->
  main_loop fuel' time stop time_step e = Some r.
Proof.
  revert fuel' time e r; induction fuel as [|fuel IH]; intros fuel' time e r; simpl; [done|].
  intros H Hle. destruct fuel' as [|fuel']; [lia|]. simpl.
  destruct (time <=? stop); [|done].
  destruct (loop_body time e) as [e1 st].
  destruct (main_loop fuel _ _ _ e1) as [r1|] eqn:E; [|done].
  rewrite (IH fuel' _ _ _ E); [done|lia].
Qed.

Section FixedMode.
Hypothesis Hfixed : use_ticks_fixed.







End FixedMode.

(** *** Clock objects *)

Lemma change_clocks_spec ss (h : gmap nat datetime) :
  let r := change_clocks ss h in
  map logic r.1 = ss /\
  (forall k, k ∈ dom h -> r.2 !! k = h !! k) /\
  dom h ⊆ dom r.2 /\
  Forall (fun s => strategy_clock s ∉ dom h) r.1 /\
  NoDup (map strategy_clock r.1).
Proof.
  revert h; induction ss as [|s rest IH]; intros h; simpl.
  - split_and!; try done. constructor.
  - specialize (IH (<[fresh (dom h) := TestClock_initial]> h)).
    destruct (change_clocks rest _) as [rest' h2]. cbn [fst snd] in *.
    destruct IH as (Hl & Hk & Hd & Hf & Hn).
    pose proof (is_fresh (dom h)) as Hfresh.
    rewrite dom_insert_L in Hd, Hk, Hf.
    split_and!.
    + simpl. by rewrite Hl.
    + intros k Hin. rewrite Hk by set_solver.
      rewrite lookup_insert_ne; [done|]. intros Heq. by rewrite <- Heq in Hin.
    + set_solver.
    + constructor; [done|].
      eapply Forall_impl; [exact Hf|]. simpl. set_solver.
    + simpl. constructor; [|done].
      rewrite list_elem_of_fmap. intros (s' & Heq & Hin).
      rewrite Forall_forall in Hf. apply Hf in Hin. set_solver.
Qed.

Lemma change_strategy_clocks_facts ss e :
  is_Some (clocks e !! test_clock e) ->
  let e' := _change_strategy_clocks_and_loggers ss e in
  map logic (strategies e') = ss /\
  time_now e' = time_now e /\
  is_Some (clocks e' !! test_clock e') /\
  Forall (fun s => strategy_clock s <> test_clock e') (strategies e') /\
  NoDup (map strategy_clock (strategies e')) /\
  (config e', clock e', created_time e', time_to_initialize e', test_clock e',
   instruments e', clock_refs e', world e', iteration e', clock_history e')
  = (config e, clock e, created_time e, time_to_initialize e, test_clock e,
     instruments e, clock_refs e, world e, iteration e, clock_history e).
Proof.
  intros Hsome. unfold _change_strategy_clocks_and_loggers.
  pose proof (change_clocks_spec ss (clocks e)) as P.
  destruct (change_clocks ss (clocks e)) as [ss' h]. cbn [fst snd] in P.
  destruct P as (Hl & Hk & Hd & Hf & Hn).
  assert (Hin : test_clock e ∈ dom (clocks e)) by (by apply elem_of_dom).
  simpl. split_and!; try done.
  - unfold time_now; simpl. by rewrite Hk.
  - by rewrite Hk.
  - eapply Forall_impl; [exact Hf|]. simpl. intros s Hs Heq. by rewrite Heq in Hs.
Qed.

(** The set-up leaves the test clock at [start], so the two assertions of
    [run] hold. *)
Lemma run_setup_facts e start time_step fm :
  let e6 := (run_setup e start time_step fm).2 in
  time_now e6 = start /\
  map logic (strategies e6) = map logic (strategies e) /\
  is_Some (clocks e6 !! test_clock e6) /\
  Forall (fun s => strategy_clock s <> test_clock e6) (strategies e6) /\
  NoDup (map strategy_clock (strategies e6)) /\
  clock_history e6 = clock_history e ++ [start] /\
  (config e6, test_clock e6, instruments e6, clock_refs e6, iteration e6)
  = (config e, test_clock e, instruments e, clock_refs e, iteration e) /\
  world e6
  = set_initial_iteration start start time_step
      (trader_start start
         (match fm with
          | Some m => change_fill_model (time_now e) m (world e)
          | None => world e
          end)).
Proof.
  unfold run_setup; cbv zeta.
  set (e1 := match fm with
             | Some fm0 => call (fun now => change_fill_model now fm0) e
             | None => e end).
  assert (H1 : (config e1, test_clock e1, instruments e1, clock_refs e1,
                iteration e1, clock_history e1, strategies e1, clocks e1)
             = (config e, test_clock e, instruments e, clock_refs e,
                iteration e, clock_history e, strategies e, clocks e))
    by (subst e1; by destruct fm).
  assert (Hw1 : world e1 = match fm with
                           | Some m => change_fill_model (time_now e) m (world e)
                           | None => world e
                           end)
    by (subst e1; by destruct fm).
  rewrite <- Hw1.
  clearbody e1. injection H1 as Hc Ht Hi Hr Hit Hh Hs Hcl.
  unfold LiveClock_time_now. cbn [snd].
  set (e3 := set_time start (with_clock _ e1)).
  assert (Hsome : is_Some (clocks e3 !! test_clock e3)).
  { subst e3; simpl. rewrite lookup_insert_eq. by eexists. }
  pose proof (change_strategy_clocks_facts (map logic (strategies e3)) e3 Hsome) as P.
  cbv zeta in P. destruct P as (Hl & Htn & Hs4 & Hf4 & Hn4 & Hfr).
  set (e4 := _change_strategy_clocks_and_loggers _ e3) in *.
  injection Hfr as ? ? ? ? ? ? ? ? ? ?.
  unfold call; simpl. split_and!.
  - change (time_now e4 = start). rewrite Htn. apply time_now_set_time.
  - rewrite Hl. subst e3; simpl. by rewrite Hs.
  - exact Hs4.
  - exact Hf4.
  - exact Hn4.
  - subst e3; simpl in *. congruence.
  - subst e3; simpl in *. congruence.
  - assert (Ht3 : time_now e4 = start)
      by (rewrite Htn; apply time_now_set_time).
    match goal with Hw : world e4 = world e1 |- _ => rewrite Hw end.
    rewrite Ht3.
    change (time_now (with_world ?w e4)) with (time_now e4).
    by rewrite Ht3.
Qed.

(** *** What the loop depends on

    Two engines with the same world, strategies, test-clock time and
    iteration count go through the loop in the same way, whatever their wall
    clocks and the other clock objects hold. *)

Lemma call_inputs f e1 e2 :
  loop_inputs e1 = loop_inputs e2 ->
  loop_inputs (call f e1) = loop_inputs (call f e2).
Proof.
  unfold loop_inputs. intros [= Hw Hs Ht Hi].
  rewrite !time_now_call. unfold call; simpl. congruence.
Qed.

Lemma set_time_inputs t e1 e2 :
  loop_inputs e1 = loop_inputs e2 ->
  loop_inputs (set_time t e1) = loop_inputs (set_time t e2).
Proof.
  unfold loop_inputs. intros [= Hw Hs Ht Hi].
  rewrite !time_now_set_time. simpl. congruence.
Qed.

Lemma with_world_inputs w e1 e2 :
  loop_inputs e1 = loop_inputs e2 ->
  loop_inputs (with_world w e1) = loop_inputs (with_world w e2).
Proof.
  unfold loop_inputs. intros [= Hw Hs Ht Hi].
  change (time_now (with_world w e1)) with (time_now e1).
  change (time_now (with_world w e2)) with (time_now e2).
  simpl. congruence.
Qed.

Lemma process_minute_bars_inputs items e1 e2 :
  loop_inputs e1 = loop_inputs e2 ->
  loop_inputs (process_minute_bars items e1).1
  = loop_inputs (process_minute_bars items e2).1 /\
  (process_minute_bars items e1).2 = (process_minute_bars items e2).2.
Proof.
  revert e1 e2; induction items as [|[symbol bid_ask] rest IH]; intros e1 e2 H; simpl; [done|].
  apply (call_inputs (fun now => exec_process_bars now symbol bid_ask.1 bid_ask.2)) in H.
  apply IH in H.
  destruct (process_minute_bars rest _) as [a1 c1].
  destruct (process_minute_bars rest _) as [a2 c2].
  cbn [fst snd] in *. destruct H as [-> ->]. done.
Qed.

Lemma iterate_strategies_inputs ss t e1 e2 :
  loop_inputs e1 = loop_inputs e2 ->
  loop_inputs (iterate_strategies ss t e1).1
  = loop_inputs (iterate_strategies ss t e2).1 /\
  (iterate_strategies ss t e1).2 = (iterate_strategies ss t e2).2.
Proof.
  revert e1 e2; induction ss as [|s rest IH]; intros e1 e2 H; simpl; [done|].
  apply (call_inputs (fun now => strategy_iterate now (logic s) t)) in H.
  apply IH in H.
  destruct (iterate_strategies rest t _) as [a1 c1].
  destruct (iterate_strategies rest t _) as [a2 c2].
  cbn [fst snd] in *. destruct H as [-> ->]. done.
Qed.

Lemma process_one_tick_inputs tick e1 e2 :
  loop_inputs e1 = loop_inputs e2 ->
  loop_inputs (process_one_tick tick e1).1
  = loop_inputs (process_one_tick tick e2).1 /\
  (process_one_tick tick e1).2 = (process_one_tick tick e2).2.
Proof.
  intros H. unfold process_one_tick.
  apply (set_time_inputs (Tick_timestamp tick)) in H.
  set (a1 := set_time _ e1) in *. set (a2 := set_time _ e2) in *.
  assert (Hw : world a1 = world a2) by (by injection H).
  rewrite Hw.
  assert (H2 : forall b1 b2 c,
    loop_inputs b1 = loop_inputs b2 ->
    loop_inputs
      (let '(e3, c3) := iterate_strategies (strategies b1) (Tick_timestamp tick) b1 in
       (call (fun now => data_process_tick now tick) e3,
        ClockSetTime (Tick_timestamp tick) :: c ++ c3 ++ [DataProcessTick tick])).1
    = loop_inputs
      (let '(e3, c3) := iterate_strategies (strategies b2) (Tick_timestamp tick) b2 in
       (call (fun now => data_process_tick now tick) e3,
        ClockSetTime (Tick_timestamp tick) :: c ++ c3 ++ [DataProcessTick tick])).1 /\
    (let '(e3, c3) := iterate_strategies (strategies b1) (Tick_timestamp tick) b1 in
       (call (fun now => data_process_tick now tick) e3,
        ClockSetTime (Tick_timestamp tick) :: c ++ c3 ++ [DataProcessTick tick])).2
    = (let '(e3, c3) := iterate_strategies (strategies b2) (Tick_timestamp tick) b2 in
       (call (fun now => data_process_tick now tick) e3,
        ClockSetTime (Tick_timestamp tick) :: c ++ c3 ++ [DataProcessTick tick])).2).
  { intros b1 b2 c Hb.
    assert (Hs : strategies b1 = strategies b2) by (by injection Hb).
    rewrite Hs.
    apply (iterate_strategies_inputs (strategies b2) (Tick_timestamp tick)) in Hb.
    destruct (iterate_strategies _ _ b1) as [x1 y1].
    destruct (iterate_strategies _ _ b2) as [x2 y2].
    cbn [fst snd] in *. destruct Hb as [Hx ->].
    split; [|done]. by apply call_inputs. }
  destruct (use_ticks (world a2)).
  - apply H2. by apply call_inputs.
  - by apply H2.
Qed.

Lemma process_ticks_inputs ticks e1 e2 :
  loop_inputs e1 = loop_inputs e2 ->
  loop_inputs (process_ticks ticks e1).1 = loop_inputs (process_ticks ticks e2).1 /\
  (process_ticks ticks e1).2 = (process_ticks ticks e2).2.
Proof.
  revert e1 e2; induction ticks as [|tick rest IH]; intros e1 e2 H; simpl; [done|].
  apply (process_one_tick_inputs tick) in H.
  destruct (process_one_tick tick e1) as [a1 c1].
  destruct (process_one_tick tick e2) as [a2 c2].
  cbn [fst snd] in H. destruct H as [H ->]. apply IH in H.
  destruct (process_ticks rest a1) as [b1 d1].
  destruct (process_ticks rest a2) as [b2 d2].
  cbn [fst snd] in *. destruct H as [-> ->]. done.
Qed.

Lemma loop_body_inputs time e1 e2 :
  loop_inputs e1 = loop_inputs e2 ->
  loop_inputs (loop_body time e1).1 = loop_inputs (loop_body time e2).1 /\
  (loop_body time e1).2 = (loop_body time e2).2.
Proof.
  intros H. unfold loop_body; cbv zeta.
  assert (Hw : world e1 = world e2) by (by injection H).
  assert (Ht : time_now e1 = time_now e2) by (by injection H).
  rewrite Hw, Ht.
  assert (H1 : exists a1 a2 items c,
    (if negb (use_ticks (world e2))
     then let '(items, w) := get_next_minute_bars (time_now e2) time (world e2) in
          let '(e', cs) := process_minute_bars items (with_world w e1) in
          (e', items, cs)
     else (e1, [], [])) = (a1, items, c) /\
    (if negb (use_ticks (world e2))
     then let '(items, w) := get_next_minute_bars (time_now e2) time (world e2) in
          let '(e', cs) := process_minute_bars items (with_world w e2) in
          (e', items, cs)
     else (e2, [], [])) = (a2, items, c) /\
    loop_inputs a1 = loop_inputs a2).
  { destruct (negb _).
    - destruct (get_next_minute_bars _ _ _) as [items w].
      pose proof (process_minute_bars_inputs items _ _ (with_world_inputs w _ _ H)) as P.
      destruct (process_minute_bars items (with_world w e1)) as [a1 c1].
      destruct (process_minute_bars items (with_world w e2)) as [a2 c2].
      cbn [fst snd] in P. destruct P as [P ->]. by eexists _, _, _, _.
    - by eexists _, _, _, _. }
  destruct H1 as (a1 & a2 & items & c & -> & -> & Ha).
  assert (Hw2 : world a1 = world a2) by (by injection Ha).
  assert (Ht2 : time_now a1 = time_now a2) by (by injection Ha).
  rewrite Hw2, Ht2.
  destruct (iterate_ticks _ _ _) as [ticks w2].
  pose proof (process_ticks_inputs ticks _ _ (with_world_inputs w2 _ _ Ha)) as P.
  destruct (process_ticks ticks (with_world w2 a1)) as [b1 d1].
  destruct (process_ticks ticks (with_world w2 a2)) as [b2 d2].
  cbn [fst snd] in P. destruct P as [P ->].
  apply (set_time_inputs time) in P.
  assert (Hw3 : world (set_time time b1) = world (set_time time b2)) by (by injection P).
  rewrite Hw3, !time_now_set_time.
  destruct (iterate_bars _ _ _) as [bars w5].
  cbn [fst snd]. split; [|done].
  apply (with_world_inputs w5) in P.
  apply (call_inputs (fun now => data_process_bars now bars)) in P.
  revert P. unfold loop_inputs. intros [= Pw Ps Pt Pi].
  change (time_now (with_iteration ?i ?e)) with (time_now e).
  simpl. rewrite Pi. simpl in Pw, Ps.
  apply pair_equal_spec; split; [|done].
  apply pair_equal_spec; split; [|exact Pt].
  apply pair_equal_spec; split; [exact Pw|exact Ps].
Qed.

Lemma main_loop_inputs fuel time stop time_step e1 e2 :
  loop_inputs e1 = loop_inputs e2 ->
  match main_loop fuel time stop time_step e1,
        main_loop fuel time stop time_step e2 with
  | Some (a1, s1), Some (a2, s2) => loop_inputs a1 = loop_inputs a2 /\ s1 = s2
  | None, None => True
  | _, _ => False
  end.
Proof.
  revert time e1 e2; induction fuel as [|fuel IH]; intros time e1 e2 H; simpl; [done|].
  destruct (time <=? stop); [|done].
  apply (loop_body_inputs time) in H.
  destruct (loop_body time e1) as [a1 st1].
  destruct (loop_body time e2) as [a2 st2].
  cbn [fst snd] in H. destruct H as [H ->].
  specialize (IH (time + time_step) _ _ H).
  destruct (main_loop fuel _ _ _ a1) as [[b1 s1]|];
    destruct (main_loop fuel _ _ _ a2) as [[b2 s2]|]; try done.
  destruct IH as [? ->]. done.
Qed.

(** *** The shape of a run *)

Lemma run_inv fuel e start stop time_step fm pls o e' steps :
  run fuel e start stop time_step fm pls = Some (o, e', steps) ->
  (exists exn, o = Raised exn /\ run_preconditions e start stop = Some exn /\
               e' = e /\ steps = []) \/
  (o = Returned /\ run_preconditions e start stop = None /\
   exists e7, main_loop fuel start stop time_step
                (run_setup e start time_step fm).2 = Some (e7, steps) /\
              finished e7 e').
Proof.
  unfold run. destruct (run_preconditions e start stop) as [exn|] eqn:Hpre.
  - intros [= <- <- <-]. left. by exists exn.
  - pose proof (run_setup_facts e start time_step fm) as F. cbv zeta in F.
    destruct (run_setup e start time_step fm) as [run_started e6]. cbn [snd] in *.
    destruct F as (Ht & _). rewrite Ht, Z.eqb_refl. cbn [negb].
    destruct (main_loop fuel start stop time_step e6) as [[e7 sts]|]; [|done].
    unfold LiveClock_get_delta, LiveClock_time_now.
    intros [= <- <- <-]. right. split_and!; try done.
    exists e7. split; [done|]. by split.
Qed.


Lemma run_preconditions_range e start stop :
  run_preconditions e start stop = None ->
  start < stop /\
  exists first lst, first_timestamp e = Some first /\ last_timestamp e = Some lst /\
                    first <= start /\ stop <= lst.
Proof.
  unfold run_preconditions, Precondition_true.
  destruct (start <? stop) eqn:E1; [|done].
  destruct (first_timestamp e) as [first|]; [|done].
  destruct (first <=? start) eqn:E2; [|done].
  destruct (last_timestamp e) as [lst|]; [|done].
  destruct (stop <=? lst) eqn:E3; [|done].
  intros _. split; [lia|]. exists first, lst. split_and!; auto; lia.
Qed.

Lemma main_loop_nonempty fuel time stop time_step e e' steps :
  main_loop fuel time stop time_step e = Some (e', steps) ->
  time <= stop -> steps <> [].
Proof.
  destruct fuel as [|fuel]; simpl; [done|].
  intros H Hle. destruct (time <=? stop) eqn:E; [|lia].
  destruct (loop_body time e) as [e1 st].
  destruct (main_loop fuel _ _ _ e1) as [[e2 sts]|]; [|done].
  by injection H as <- <-.
Qed.

(** *** Order and selection of the calls of a pass *)
















(** *** Running to the end *)


Lemma run_iteration fuel e start stop time_step fm pls e' steps :
  run fuel e start stop time_step fm pls = Some (Returned, e', steps) ->
  iteration e' = wrap_int (iteration e + Z.of_nat (length steps)).
Proof.
  intros Hrun. apply run_inv in Hrun as [(exn & ? & _)|(_ & Hpre & e7 & Hloop & Hw & Hfin)];
    [done|].
  apply run_preconditions_range in Hpre as (Hlt & _).
  pose proof (main_loop_frame _ _ _ _ _ _ _ Hloop) as (_ & Hi & _).
  pose proof (main_loop_nonempty _ _ _ _ _ _ _ Hloop ltac:(lia)) as Hne.
  pose proof (run_setup_facts e start time_step fm) as F. cbv zeta in F.
  set (e6 := (run_setup e start time_step fm).2) in *.
  destruct F as (_ & _ & _ & _ & _ & _ & Hfr & _).
  assert (Hit : iteration e6 = iteration e) by (by injection Hfr).
  assert (Hit' : iteration e' = iteration e7) by (by injection Hfin).
  rewrite Hit', Hi, Hit. by destruct steps.
Qed.

(** With a step that is not positive, a call that passes the preconditions
    never returns. *)
Lemma run_diverges fuel e start stop time_step fm pls :
  run_preconditions e start stop = None -> time_step <= 0 ->
  run fuel e start stop time_step fm pls = None.
Proof.
  intros Hpre Hneg. unfold run. rewrite Hpre.
  pose proof (run_setup_facts e start time_step fm) as F. cbv zeta in F.
  destruct (run_setup e start time_step fm) as [run_started e6]. cbn [snd] in *.
  destruct F as (Ht & _). rewrite Ht, Z.eqb_refl. cbn [negb].
  apply run_preconditions_range in Hpre as (Hlt & _).
  rewrite main_loop_diverges; [done|done|lia].
Qed.

(** The run header reports the mode the loop branches on. *)
Lemma execution_res_ticks e :
  execution_res e = "TICKS"%string <-> use_ticks (world e) = true.
Proof. unfold execution_res. by destruct (use_ticks (world e)). Qed.

Lemma last_head_Some {A} (l : list A) x : last l = Some x -> is_Some (head l).
Proof. destruct l; [done|]. by eexists. Qed.

(** *** The assignments of the test clock *)

Lemma monotonicb_spec l : monotonicb l = true -> monotonic l.
Proof.
  induction l as [|x l IH]; intros H i a b Hi Hsi; [done|].
  destruct l as [|y l']; [done|].
  simpl in H. apply andb_prop in H as [Hxy Hrest].
  destruct i as [|i]; simpl in Hi, Hsi.
  - injection Hi as <-. injection Hsi as <-. lia.
  - by apply (IH Hrest i a b).
Qed.

Lemma monotonicb_cons lo l :
  monotonicb l = true -> Forall (fun t => lo <= t) l -> monotonicb (lo :: l) = true.
Proof.
  intros Hl Hlo. destruct l as [|x l']; [done|].
  inversion Hlo; subst. simpl in *. rewrite Hl.
  apply andb_true_intro; split; [lia|done].
Qed.

Lemma mono_chain lo l hi rest :
  monotonicb (lo :: l) = true -> Forall (fun t => t <= hi) l -> lo <= hi ->
  monotonicb (hi :: rest) = true ->
  monotonicb (lo :: l ++ hi :: rest) = true.
Proof.
  revert lo; induction l as [|x l IH]; intros lo Hl Hhi Hle Hrest.
  - change (monotonicb (lo :: [] ++ hi :: rest))
      with ((lo <=? hi) && monotonicb (hi :: rest)).
    rewrite Hrest. apply andb_true_intro; split; [lia|done].
  - change (monotonicb (lo :: x :: l))
      with ((lo <=? x) && monotonicb (x :: l)) in Hl.
    apply andb_prop in Hl as [Hx Hl].
    inversion Hhi; subst.
    change (monotonicb (lo :: (x :: l) ++ hi :: rest))
      with ((lo <=? x) && monotonicb (x :: l ++ hi :: rest)).
    rewrite Hx. simpl andb. by apply IH.
Qed.

Lemma main_loop_clock_sets fuel time stop time_step e e' steps :
  main_loop fuel time stop time_step e = Some (e', steps) ->
  Forall (fun st => clock_sets (step_calls st)
                    = map Tick_timestamp (step_ticks st) ++ [step_time st]) steps.
Proof.
  revert time e e' steps; induction fuel as [|fuel IH]; intros time e e' steps; simpl; [done|].
  destruct (time <=? stop).
  - pose proof (loop_body_frame time e) as B.
    destruct (loop_body time e) as [e1 st]. cbn [fst snd] in B.
    destruct B as (_ & _ & _ & Ht & _ & Hc & _).
    destruct (main_loop fuel _ _ _ e1) as [[e2 sts]|] eqn:E; [|done].
    intros [= <- <-]. constructor; [by rewrite Ht|by eapply IH].
  - intros [= <- <-]. constructor.
Qed.

Lemma loop_assignments_monotone start time_step steps :
  0 <= time_step ->
  forall time lo,
    (forall i st, steps !! i = Some st ->
       step_time st = time + Z.of_nat i * time_step) ->
    forallb (ticks_in_window start time_step) steps = true ->
    Forall (fun st => clock_sets (step_calls st)
                      = map Tick_timestamp (step_ticks st) ++ [step_time st]) steps ->
    lo <= Z.max start (time - time_step) -> start <= time ->
    monotonicb (lo :: flat_map (fun st => clock_sets (step_calls st)) steps) = true.
Proof.
  intros Hpos. induction steps as [|st rest IH]; intros time lo Htimes Hwin Hsets Hlo Hstart;
    [done|].
  simpl in Hwin. apply andb_prop in Hwin as [Hst Hwin].
  inversion Hsets as [|? ? Hc Hsets']; subst.
  assert (Htime : step_time st = time).
  { rewrite (Htimes 0%nat st eq_refl). lia. }
  unfold ticks_in_window in Hst. apply andb_prop in Hst as [Hsorted Hbounds].
  rewrite forallb_forall in Hbounds.
  simpl flat_map. rewrite Hc, Htime, <- app_assoc. simpl app.
  apply mono_chain.
  - apply monotonicb_cons; [done|]. apply Forall_forall. intros t Hin.
    apply list_elem_of_In, Hbounds in Hin. rewrite Htime in Hin. lia.
  - apply Forall_forall. intros t Hin.
    apply list_elem_of_In, Hbounds in Hin. rewrite Htime in Hin. lia.
  - lia.
  - apply (IH (time + time_step)); try done; try lia.
    intros i st' Hi. rewrite (Htimes (S i) st' Hi). lia.
Qed.

(** *** Independence from the wall clock *)


Lemma run_setup_strategies e start time_step fm :
  strategies (run_setup e start time_step fm).2
  = (change_clocks (map logic (strategies e))
       (<[test_clock e := start]> (clocks e))).1.
Proof.
  unfold run_setup, _change_strategy_clocks_and_loggers, LiveClock_time_now.
  cbv zeta. cbn [snd].
  destruct fm; simpl; by destruct (change_clocks _ _).
Qed.




(** *** Clocks of the strategies *)




End EngineFacts.

(** * The claims *)

Section Claims.
Context `{C : Components}.

(** C2. A call [run(start, stop)] with start >= stop, or with start before
    the first timestamp of the data, or with stop after the last one, fails
    with the range error (the [ValueError] of the three preconditions) and
    leaves the engine exactly as it was: iteration counter, test clock, data
    client, execution client, portfolio and trader. *)
Theorem run_invalid_range_no_mutation fuel e start stop time_step fm pls :
  stop <= start \/
  (exists first, first_timestamp e = Some first /\ start < first) \/
  (exists lst, last_timestamp e = Some lst /\ lst < stop) ->
  exists exn,
    run fuel e start stop time_step fm pls = Some (Raised exn, e, []) /\
    InvalidRange exn = true.
Proof.
  intros H. unfold run, run_preconditions, Precondition_true.
  destruct (start <? stop) eqn:E1; [|by eexists].
  destruct (first_timestamp e) as [first|] eqn:Hfirst.
  - destruct (first <=? start) eqn:E2; [|by eexists].
    destruct H as [H|[(f & Hf & H)|(lst & Hl & H)]]; [lia| |].
    + injection Hf as <-. lia.
    + rewrite Hl. destruct (stop <=? lst) eqn:E3; [lia|by eexists].
  - destruct H as [H|[(f & Hf & H)|(lst & Hl & H)]]; [lia|done|].
    apply last_head_Some in Hl as [x Hx]. unfold first_timestamp in Hfirst.
    congruence.
Qed.







(** C4 (amended). Within one run that returns, and provided the ticks of
    every pass come in time order, none later than the pass's time and none
    earlier than the previous pass (or the start), the assignments to the
    test clock never decrease: the set-up assigns start, then each pass
    assigns the timestamps of its ticks and its own time.  (Across the
    engine's life they do decrease: see the counterexample.) *)
Theorem run_clock_monotonic fuel e start stop time_step fm pls e' steps :
  run fuel e start stop time_step fm pls = Some (Returned, e', steps) ->
  forallb (ticks_in_window start time_step) steps = true ->
  clock_history e' = clock_history e ++ run_assignments start steps /\
  monotonic (run_assignments start steps).
Proof.
  intros Hrun Hwin.
  apply run_inv in Hrun as [(exn & ? & _)|(_ & Hpre & e7 & Hloop & Hw & Hfin)];
    [done|].
  apply run_preconditions_range in Hpre as (Hlt & _).
  pose proof (main_loop_frame _ _ _ _ _ _ _ Hloop) as (_ & _ & Hh & _).
  pose proof (run_setup_facts e start time_step fm) as F. cbv zeta in F.
  set (e6 := (run_setup e start time_step fm).2) in *.
  destruct F as (_ & _ & _ & _ & _ & Hh6 & _).
  assert (Hh' : clock_history e' = clock_history e7) by (by injection Hfin).
  split.
  - rewrite Hh', Hh, Hh6, <- app_assoc. done.
  - apply monotonicb_spec. unfold run_assignments.
    assert (Hpos : 0 < time_step).
    { destruct (Z.lt_ge_cases 0 time_step) as [|Hneg]; [done|].
      rewrite (main_loop_diverges fuel start stop time_step e6) in Hloop; [done|lia|lia]. }
    apply (loop_assignments_monotone start time_step steps ltac:(lia) start start);
      [|done| |lia|lia].
    + intros i st Hi. by destruct (main_loop_times _ _ _ _ _ _ _ Hloop i st Hi).
    + by eapply main_loop_clock_sets.
Qed.



End Claims.

(** * Concrete runs *)

Section Concrete.
Import Sample.

Lemma sample_use_ticks_fixed : use_ticks_fixed.
Proof. repeat split. Qed.

Lemma sample_setup_reads_no_clock : setup_reads_no_clock.
Proof. repeat split. Qed.

Lemma ran_eq :
  run 10 engine 0 2 1 None true = Some (Returned, ran_engine, ran_steps).
Proof. vm_compute. reflexivity. Qed.

Lemma bar_ran_eq :
  run 10 bar_engine 0 2 1 (Some 3) true
  = Some (Returned, bar_ran_engine, bar_ran_steps).
Proof. vm_compute. reflexivity. Qed.

(** The calls of the first pass in each mode. *)
Example tick_mode_first_pass :
  step_calls <$> head ran_steps
  = Some [ClockSetTime 0; ExecProcessTick (0, 50); StrategyIterate 7%nat 0;
          DataProcessTick (0, 50); ClockSetTime 0; DataProcessBars [0]].
Proof. vm_compute. reflexivity. Qed.

Example bar_mode_first_pass :
  step_calls <$> head bar_ran_steps
  = Some [ExecProcessBars 0%nat 0 0; ClockSetTime 0; DataProcessBars [0]].
Proof. vm_compute. reflexivity. Qed.

(** Scenarios A and B of the specification. *)
Example scenario_A :
  let p := (PortfolioModel.apply buy_fill (PortfolioModel.opening 10000)).2 in
  PortfolioModel.position_of p "AUDUSD" = PortfolioModel.mkPosition 10 100 /\
  PortfolioModel.balance (PortfolioModel.account p) = 10000%Q.
Proof. vm_compute. split; reflexivity. Qed.

Example scenario_B :
  let p := (PortfolioModel.apply sell_fill
              (PortfolioModel.apply buy_fill (PortfolioModel.opening 10000)).2).2 in
  PortfolioModel.positions p !! "AUDUSD"%string = None /\
  PortfolioModel.realized_pnl (PortfolioModel.account p) = 100%Q /\
  PortfolioModel.balance (PortfolioModel.account p) = 10100%Q.
Proof. vm_compute. split_and!; reflexivity. Qed.


(** [run(2, 2)]: start is not before stop. *)
Lemma run_invalid_range_no_mutation_witness :
  exists exn,
    run 10 engine 2 2 1 None true = Some (Raised exn, engine, []) /\
    InvalidRange exn = true.
Proof.
  apply (run_invalid_range_no_mutation (C := components) 10 engine 2 2 1 None true).
  left. lia.
Defined.



Lemma run_clock_monotonic_witness :
  clock_history ran_engine = clock_history engine ++ run_assignments 0 ran_steps /\
  monotonic (run_assignments 0 ran_steps).
Proof.
  apply (run_clock_monotonic (C := components) 10 engine 0 2 1 None true ran_engine ran_steps).
  - vm_compute. reflexivity.
  - vm_compute. reflexivity.
Defined.





(** Counterexample to C4 as stated: the engine is built while the wall clock
    shows 100, which the constructor puts on the test clock; the set-up of
    [run(0, 2)] then assigns 0. *)
Lemma clock_moves_backward :
  run 10 engine 0 2 1 None true = Some (Returned, ran_engine, ran_steps) /\
  clock_history ran_engine = [100; 0; 0; 0; 1; 1; 2; 2] /\
  ~ monotonic (clock_history ran_engine).
Proof.
  assert (Hh : clock_history ran_engine = [100; 0; 0; 0; 1; 1; 2; 2])
    by (vm_compute; reflexivity).
  split_and!; [exact ran_eq|exact Hh|].
  rewrite Hh. intros H. specialize (H 0%nat 100 0 eq_refl eq_refl). lia.
Qed.




End Concrete.

(** * Further properties of the engine *)

Section MoreFacts.
Context `{C : Components}.

(** *** Counting the passes *)

Lemma main_loop_length fuel time stop time_step e e' steps :
  0 < time_step ->
  main_loop fuel time stop time_step e = Some (e', steps) ->
  Z.of_nat (length steps) = Z.max 0 ((stop - time) / time_step + 1).
Proof.
  intros Hpos. revert time e e' steps.
  induction fuel as [|fuel IH]; intros time e e' steps; simpl; [done|].
  destruct (time <=? stop) eqn:Hle.
  - apply Z.leb_le in Hle.
    destruct (loop_body time e) as [e1 st].
    destruct (main_loop fuel _ _ _ e1) as [[e2 sts]|] eqn:E; [|done].
    intros [= <- <-]. apply IH in E.
    assert (Hdiv : (stop - time) / time_step
                   = (stop - (time + time_step)) / time_step + 1).
    { replace (stop - time) with ((stop - (time + time_step)) + 1 * time_step) by lia.
      rewrite Z.div_add by lia. lia. }
    assert (0 <= (stop - time) / time_step) by (apply Z.div_pos; lia).
    simpl length. lia.
  - apply Z.leb_gt in Hle. intros [= <- <-]. simpl.
    assert ((stop - time) / time_step < 0) by (apply Z.div_lt_upper_bound; lia).
    lia.
Qed.

(** After the loop the test clock shows the time of the last pass. *)
Lemma main_loop_final_clock fuel time stop time_step e e' steps :
  main_loop fuel time stop time_step e = Some (e', steps) ->
  time_now e' = default (time_now e) (last (map step_time steps)).
Proof.
  revert time e e' steps; induction fuel as [|fuel IH]; intros time e e' steps; simpl; [done|].
  destruct (time <=? stop).
  - pose proof (loop_body_frame time e) as B.
    destruct (loop_body time e) as [e1 st]. cbn [fst snd] in B.
    destruct B as (_ & _ & Ht & Hst & _).
    destruct (main_loop fuel _ _ _ e1) as [[e2 sts]|] eqn:E; [|done].
    intros [= <- <-]. apply IH in E. rewrite E, Ht. simpl map.
    rewrite last_cons, Hst. by destruct (last (map step_time sts)).
  - by intros [= <- <-].
Qed.

(** *** The loop writes no clock object but the test clock *)

Lemma process_one_tick_other_clocks tick e k :
  k <> test_clock e ->
  clocks (process_one_tick tick e).1 !! k = clocks e !! k.
Proof.
  intros Hk. unfold process_one_tick.
  set (e1 := set_time (Tick_timestamp tick) e).
  change (world e1) with (world e).
  set (r2 := if use_ticks (world e)
             then (call (fun now => exec_process_tick now tick) e1, [ExecProcessTick tick])
             else (e1, [])).
  assert (H2 : clocks r2.1 = clocks e1 /\ strategies r2.1 = strategies e1)
    by (subst r2; by destruct (use_ticks (world e))).
  destruct r2 as [e2 c2]; simpl in H2. destruct H2 as [Hc2 _].
  pose proof (iterate_strategies_frame (strategies e2) (Tick_timestamp tick) e2) as IH.
  destruct (iterate_strategies _ _ _) as [e3 c3]; simpl in IH.
  destruct IH as (_ & _ & Hc & _).
  simpl. rewrite Hc, Hc2. subst e1; simpl. by rewrite lookup_insert_ne.
Qed.

Lemma process_ticks_other_clocks ticks e k :
  k <> test_clock e ->
  clocks (process_ticks ticks e).1 !! k = clocks e !! k.
Proof.
  revert e; induction ticks as [|tick rest IH]; intros e Hk; simpl; [done|].
  pose proof (process_one_tick_other_clocks tick e k Hk) as H1.
  pose proof (process_one_tick_frame tick e) as F1.
  destruct (process_one_tick tick e) as [e1 c1]. cbn [fst snd] in *.
  destruct F1 as (Hf & _).
  assert (Ht : test_clock e1 = test_clock e) by (by injection Hf).
  specialize (IH e1). destruct (process_ticks rest e1) as [e2 c2].
  cbn [fst snd] in *. rewrite IH by (by rewrite Ht). exact H1.
Qed.

Lemma loop_body_other_clocks time e k :
  k <> test_clock e ->
  clocks (loop_body time e).1 !! k = clocks e !! k.
Proof.
  intros Hk. unfold loop_body; cbv zeta.
  assert (H1 : forall r1 : BacktestEngine * list (Symbol * (Bar * Bar)) * list Call,
    r1 = (if negb (use_ticks (world e))
          then let '(items, w) := get_next_minute_bars (time_now e) time (world e) in
               let '(e', cs) := process_minute_bars items (with_world w e) in
               (e', items, cs)
          else (e, [], [])) ->
    clocks r1.1.1 = clocks e /\ test_clock r1.1.1 = test_clock e).
  { intros r1 ->. destruct (negb _); [|done].
    destruct (get_next_minute_bars _ _ _) as [items w].
    pose proof (process_minute_bars_frame items (with_world w e)) as P.
    destruct (process_minute_bars _ _) as [e' cs]. cbn [fst snd] in *.
    destruct P as (Hf & _ & Hc & _). split; [done|]. by injection Hf. }
  specialize (H1 _ eq_refl).
  destruct (if negb (use_ticks (world e)) then _ else _) as [[e1 items] c1].
  cbn [fst snd] in H1. destruct H1 as (Hc1 & Ht1).
  destruct (iterate_ticks _ _ _) as [ticks w2].
  pose proof (process_ticks_other_clocks ticks (with_world w2 e1) k) as P3.
  pose proof (process_ticks_frame ticks (with_world w2 e1)) as F3.
  destruct (process_ticks _ _) as [e3 c3]. cbn [fst snd] in P3, F3.
  destruct F3 as (Hf3 & _).
  assert (Ht3 : test_clock e3 = test_clock e1) by (by injection Hf3).
  destruct (iterate_bars _ _ _) as [bars w5]. cbn [fst snd]. simpl.
  rewrite lookup_insert_ne by (rewrite Ht3, Ht1; done).
  rewrite P3 by (simpl; by rewrite Ht1). simpl. by rewrite Hc1.
Qed.

Lemma main_loop_other_clocks fuel time stop time_step e e' steps k :
  main_loop fuel time stop time_step e = Some (e', steps) ->
  k <> test_clock e ->
  clocks e' !! k = clocks e !! k.
Proof.
  revert time e e' steps; induction fuel as [|fuel IH]; intros time e e' steps; simpl; [done|].
  destruct (time <=? stop).
  - pose proof (loop_body_other_clocks time e k) as B.
    pose proof (loop_body_frame time e) as F.
    destruct (loop_body time e) as [e1 st]. cbn [fst snd] in B, F.
    destruct F as (Hf & _).
    assert (Ht : test_clock e1 = test_clock e) by (by injection Hf).
    destruct (main_loop fuel _ _ _ e1) as [[e2 sts]|] eqn:E; [|done].
    intros [= <- <-] Hk. rewrite (IH _ _ _ _ E) by (by rewrite Ht). by apply B.
  - by intros [= <- <-].
Qed.

(** *** New clock objects *)


(** *** What the set-up of a run keeps *)

Lemma run_setup_frame e start time_step fm :
  let e6 := (run_setup e start time_step fm).2 in
  created_time e6 = created_time e /\
  time_to_initialize e6 = time_to_initialize e /\
  clock e6 = mkLiveClock (wall (clock e)) (S (reads (clock e))) /\
  Forall (fun s => strategy_clock s ∉ dom (clocks e)) (strategies e6) /\
  (forall k, k <> test_clock e -> k ∈ dom (clocks e) ->
             clocks e6 !! k = clocks e !! k).
Proof.
  unfold run_setup, _change_strategy_clocks_and_loggers, LiveClock_time_now.
  cbv zeta. cbn [snd].
  set (e1 := match fm with
             | Some fm0 => call (fun now => change_fill_model now fm0) e
             | None => e end).
  assert (H1 : (created_time e1, time_to_initialize e1, clock e1, clocks e1,
                test_clock e1, strategies e1)
             = (created_time e, time_to_initialize e, clock e, clocks e,
                test_clock e, strategies e))
    by (subst e1; by destruct fm).
  clearbody e1. injection H1 as Hcr Hti Hcl Hcs Ht Hs.
  simpl. rewrite Hcs, Ht, Hs.
  pose proof (change_clocks_spec (map logic (strategies e))
                (<[test_clock e := start]> (clocks e))) as P.
  destruct (change_clocks _ _) as [ss' h]. cbn [fst snd] in P.
  destruct P as (_ & Hk & _ & Hf & _).
  simpl. rewrite Hcr, Hti, Hcl. split_and!; try done.
  - eapply Forall_impl; [exact Hf|]. simpl. intros s. rewrite dom_insert_L. set_solver.
  - intros k Hne Hin. rewrite Hk by (rewrite dom_insert_L; set_solver).
    by rewrite lookup_insert_ne.
Qed.

End MoreFacts.

Section MoreProperties.
Context `{C : Components}.


Lemma run_result fuel e start stop time_step fm pls e' steps :
  run fuel e start stop time_step fm pls = Some (Returned, e', steps) ->
  run_preconditions e start stop = None /\
  exists e7,
    main_loop fuel start stop time_step (run_setup e start time_step fm).2
    = Some (e7, steps) /\
    e' = with_clock (mkLiveClock (wall (clock e7)) (S (reads (clock e7))))
           (call trader_stop e7).
Proof.
  unfold run. destruct (run_preconditions e start stop) as [exn|]; [done|].
  pose proof (run_setup_facts e start time_step fm) as F. cbv zeta in F.
  destruct (run_setup e start time_step fm) as [run_started e6]. cbn [snd] in *.
  destruct F as (Ht & _). rewrite Ht, Z.eqb_refl. cbn [negb].
  destruct (main_loop fuel start stop time_step e6) as [[e7 sts]|]; [|done].
  unfold LiveClock_get_delta, LiveClock_time_now.
  intros [= <- <-]. split; [done|]. by exists e7.
Qed.



(** X3. [run] does not reset the iteration counter: after two runs in a row
    it holds the passes of both (in C int arithmetic), and only a [reset]
    between them makes the second run count from zero. *)
Theorem iteration_accumulates f1 e a1 b1 s1 m1 p1 e1 st1 :
  run f1 e a1 b1 s1 m1 p1 = Some (Returned, e1, st1) ->
  (forall f2 a2 b2 s2 m2 p2 e2 st2,
     run f2 e1 a2 b2 s2 m2 p2 = Some (Returned, e2, st2) ->
     iteration e2
     = wrap_int (iteration e + Z.of_nat (length st1) + Z.of_nat (length st2))) /\
  (forall f2 a2 b2 s2 m2 p2 e2 st2,
     run f2 (reset e1) a2 b2 s2 m2 p2 = Some (Returned, e2, st2) ->
     iteration e2 = wrap_int (Z.of_nat (length st2))).
Proof.
  intros H1. apply run_iteration in H1. split.
  - intros f2 a2 b2 s2 m2 p2 e2 st2 H2. apply run_iteration in H2.
    by rewrite H2, H1, wrap_int_add.
  - intros f2 a2 b2 s2 m2 p2 e2 st2 H2. apply run_iteration in H2.
    rewrite H2. reflexivity.
Qed.

(** X4. When [run] returns, the time step was positive and the test clock
    shows the time of the last pass, start + floor((stop - start) /
    time_step) * time_step: at most stop, less than one step before it, and
    stop itself exactly when the step divides stop - start. *)
Theorem run_final_clock fuel e start stop time_step fm pls e' steps :
  run fuel e start stop time_step fm pls = Some (Returned, e', steps) ->
  0 < time_step /\
  time_now e' = start + (stop - start) / time_step * time_step /\
  time_now e' <= stop < time_now e' + time_step /\
  (time_now e' = stop <-> (stop - start) mod time_step = 0).
Proof.
  intros Hrun. apply run_result in Hrun as (Hpre & e7 & Hloop & ->).
  apply run_preconditions_range in Hpre as (Hlt & _).
  assert (Hpos : 0 < time_step).
  { destruct (Z.lt_ge_cases 0 time_step) as [|Hneg]; [done|].
    rewrite main_loop_diverges in Hloop; [done|done|lia]. }
  pose proof (main_loop_length _ _ _ _ _ _ _ Hpos Hloop) as Hlen.
  pose proof (main_loop_final_clock _ _ _ _ _ _ _ Hloop) as Hfinal.
  pose proof (main_loop_times _ _ _ _ _ _ _ Hloop) as Htimes.
  assert (0 <= (stop - start) / time_step) by (apply Z.div_pos; lia).
  assert (Hlast : last (map step_time steps)
                  = Some (start + (stop - start) / time_step * time_step)).
  { change (map step_time steps) with (step_time <$> steps).
    rewrite last_lookup, list_lookup_fmap, length_fmap.
    destruct (steps !! pred (length steps)) as [st|] eqn:Hst.
    - destruct (Htimes _ _ Hst) as [Heq _]. simpl. rewrite Heq.
      apply lookup_lt_Some in Hst. do 3 f_equal. lia.
    - apply lookup_ge_None in Hst. lia. }
  assert (Hclock : time_now e7 = start + (stop - start) / time_step * time_step)
    by (by rewrite Hfinal, Hlast).
  change (time_now (with_clock _ (call trader_stop e7))) with (time_now e7).
  rewrite Hclock.
  pose proof (Z.mod_pos_bound (stop - start) time_step Hpos).
  pose proof (Z.div_mod (stop - start) time_step ltac:(lia)).
  split_and!; try done; try nia.
Qed.

(** X5. Whatever its outcome, [run] leaves the configuration, the
    instruments, the creation time, the initialization time, the identity of
    the test clock and the clocks the collaborators hold as they were, and
    keeps the trader's strategies in their order. *)
Theorem run_keeps fuel e start stop time_step fm pls o e' steps :
  run fuel e start stop time_step fm pls = Some (o, e', steps) ->
  config e' = config e /\ instruments e' = instruments e /\
  created_time e' = created_time e /\
  time_to_initialize e' = time_to_initialize e /\
  test_clock e' = test_clock e /\ clock_refs e' = clock_refs e /\
  map logic (strategies e') = map logic (strategies e).
Proof.
  intros Hrun. destruct o as [|exn].
  - apply run_result in Hrun as (_ & e7 & Hloop & ->).
    pose proof (main_loop_frame _ _ _ _ _ _ _ Hloop) as (Hf & _).
    pose proof (run_setup_facts e start time_step fm) as F.
    pose proof (run_setup_frame e start time_step fm) as G.
    cbv zeta in F, G.
    set (e6 := (run_setup e start time_step fm).2) in *.
    destruct F as (_ & Hl & _ & _ & _ & _ & Hfr & _).
    destruct G as (Hcr & Hti & _).
    clearbody e6.
    injection Hf as Hc7 Hk7 Hcr7 Hti7 Ht7 Hi7 Hr7 Hs7.
    injection Hfr as Hc6 Ht6 Hi6 Hr6 _.
    cbn [config instruments created_time time_to_initialize test_clock
         clock_refs strategies with_clock call with_world].
    split_and!; congruence.
  - apply run_inv in Hrun as [(exn' & _ & _ & -> & _)|(? & _)]; [|done].
    by split_and!.
Qed.


(** X7. Every run that returns leaves the strategies with clock objects that
    did not exist when [run] was called; the clock objects they held before
    (like every clock object but the test clock) are left as they were. *)
Theorem run_replaces_strategy_clocks fuel e start stop time_step fm pls e' steps :
  run fuel e start stop time_step fm pls = Some (Returned, e', steps) ->
  Forall (fun s => strategy_clock s ∉ dom (clocks e)) (strategies e') /\
  (forall k, k <> test_clock e -> k ∈ dom (clocks e) ->
             clocks e' !! k = clocks e !! k).
Proof.
  intros Hrun. apply run_result in Hrun as (_ & e7 & Hloop & ->).
  pose proof (main_loop_frame _ _ _ _ _ _ _ Hloop) as (Hf & _).
  pose proof (run_setup_facts e start time_step fm) as F.
  pose proof (run_setup_frame e start time_step fm) as G.
  cbv zeta in F, G.
  set (e6 := (run_setup e start time_step fm).2) in *.
  destruct F as (_ & _ & _ & _ & _ & _ & Hfr & _).
  destruct G as (_ & _ & _ & Hnew & Hold).
  assert (Ht6 : test_clock e6 = test_clock e) by (by injection Hfr).
  assert (Hs7 : strategies e7 = strategies e6) by (by injection Hf).
  simpl. rewrite Hs7. split; [exact Hnew|].
  intros k Hne Hin.
  rewrite (main_loop_other_clocks _ _ _ _ _ _ _ k Hloop) by (by rewrite Ht6).
  by apply Hold.
Qed.

(** X8. The assignments a returning run makes to the test clock are exactly
    these, in order: start at the set-up, then in every pass the timestamp of
    each of its ticks followed by the time of the pass.  Nothing guards them:
    a tick stamped later than its pass moves the clock forward and the pass
    then moves it back. *)
Theorem run_clock_assignments fuel e start stop time_step fm pls e' steps :
  run fuel e start stop time_step fm pls = Some (Returned, e', steps) ->
  clock_history e'
  = clock_history e
    ++ start :: flat_map (fun st => map Tick_timestamp (step_ticks st)
                                    ++ [step_time st]) steps.
Proof.
  intros Hrun. apply run_result in Hrun as (_ & e7 & Hloop & ->).
  pose proof (main_loop_frame _ _ _ _ _ _ _ Hloop) as (_ & _ & Hh & _).
  pose proof (main_loop_clock_sets _ _ _ _ _ _ _ Hloop) as Hsets.
  pose proof (run_setup_facts e start time_step fm) as F. cbv zeta in F.
  set (e6 := (run_setup e start time_step fm).2) in *.
  destruct F as (_ & _ & _ & _ & _ & Hh6 & _).
  simpl. rewrite Hh, Hh6, <- app_assoc. simpl. do 2 f_equal.
  clear Hloop Hh. induction Hsets as [|st sts Hst _ IH]; simpl; [done|].
  by rewrite Hst, IH.
Qed.

(** X9. What a run does and leaves does not depend on what the test clock
    showed before the call: the set-up assigns start before any collaborator
    is called (no fill model being passed), so engines that differ only in
    the time on the test clock give the same outcome, world, iteration count
    and passes. *)
Theorem run_ignores_prior_clock fuel e t start stop time_step pls :
  observe (run fuel (set_time t e) start stop time_step None pls)
  = observe (run fuel e start stop time_step None pls).
Proof.
  pose proof (run_setup_facts (set_time t e) start time_step None) as F1.
  pose proof (run_setup_facts e start time_step None) as F2.
  pose proof (run_setup_strategies (set_time t e) start time_step None) as S1.
  pose proof (run_setup_strategies e start time_step None) as S2.
  cbv zeta in F1, F2.
  assert (Hin6 : loop_inputs (run_setup (set_time t e) start time_step None).2
                 = loop_inputs (run_setup e start time_step None).2).
  { set (a1 := (run_setup (set_time t e) start time_step None).2) in *.
    set (a2 := (run_setup e start time_step None).2) in *.
    destruct F1 as (Ht1 & _ & _ & _ & _ & _ & Hfr1 & Hw1).
    destruct F2 as (Ht2 & _ & _ & _ & _ & _ & Hfr2 & Hw2).
    assert (Hi1 : iteration a1 = iteration (set_time t e)) by (by injection Hfr1).
    assert (Hi2 : iteration a2 = iteration e) by (by injection Hfr2).
    unfold loop_inputs. rewrite Ht1, Ht2, Hi1, Hi2, S1, S2, Hw1, Hw2.
    cbn [strategies world iteration test_clock clocks set_time].
    rewrite insert_insert_eq. done. }
  destruct F1 as (Ht1 & _). destruct F2 as (Ht2 & _).
  unfold run.
  change (run_preconditions (set_time t e) start stop)
    with (run_preconditions e start stop).
  destruct (run_preconditions e start stop) as [exn|]; [done|].
  destruct (run_setup (set_time t e) start time_step None) as [rs1 a1].
  destruct (run_setup e start time_step None) as [rs2 a2].
  cbn [snd] in *. rewrite Ht1, Ht2, Z.eqb_refl. cbn [negb].
  pose proof (main_loop_inputs fuel start stop time_step a1 a2 Hin6) as Hloop.
  destruct (main_loop fuel start stop time_step a1) as [[b1 s1]|];
    destruct (main_loop fuel start stop time_step a2) as [[b2 s2]|]; try done.
  destruct Hloop as [Hb ->]. revert Hb. unfold loop_inputs. intros [= Hbw Hbs Hbt Hbi].
  unfold LiveClock_get_delta, LiveClock_time_now, call. simpl.
  by rewrite Hbw, Hbt, Hbi.
Qed.

End MoreProperties.

Section MoreConcrete.
Import Sample.


(** The same call with a step of zero never returns. *)
Example zero_step_never_returns fuel :
  run fuel engine 0 2 0 None true = None.
Proof.
  apply (run_diverges (C := components)); [vm_compute; reflexivity|lia].
Qed.


Lemma iteration_accumulates_witness :
  (forall f2 a2 b2 s2 m2 p2 e2 st2,
     run f2 ran_engine a2 b2 s2 m2 p2 = Some (Returned, e2, st2) ->
     iteration e2
     = wrap_int (iteration engine + Z.of_nat (length ran_steps)
                 + Z.of_nat (length st2))) /\
  (forall f2 a2 b2 s2 m2 p2 e2 st2,
     run f2 (reset ran_engine) a2 b2 s2 m2 p2 = Some (Returned, e2, st2) ->
     iteration e2 = wrap_int (Z.of_nat (length st2))).
Proof.
  apply (iteration_accumulates (C := components) 10 engine 0 2 1 None true
           ran_engine ran_steps).
  vm_compute. reflexivity.
Defined.

(** Two runs in a row leave 6 in the counter, a reset in between leaves 3. *)
Example two_runs_count :
  match run 10 ran_engine 0 2 1 None true,
        run 10 (reset ran_engine) 0 2 1 None true with
  | Some (_, e2, _), Some (_, e2', _) => iteration e2 = 6 /\ iteration e2' = 3
  | _, _ => False
  end.
Proof. vm_compute. split; reflexivity. Qed.

Lemma run_final_clock_witness :
  0 < 1 /\
  time_now ran_engine = 0 + (2 - 0) / 1 * 1 /\
  time_now ran_engine <= 2 < time_now ran_engine + 1 /\
  (time_now ran_engine = 2 <-> (2 - 0) mod 1 = 0).
Proof.
  apply (run_final_clock (C := components) 10 engine 0 2 1 None true
           ran_engine ran_steps).
  vm_compute. reflexivity.
Defined.

(** With a step of 2 over [0, 3] the clock ends at 2, not at stop. *)
Example final_clock_before_stop :
  match run 10 engine 0 3 2 None true with
  | Some (_, e', _) => time_now e' = 2
  | None => False
  end.
Proof. vm_compute. reflexivity. Qed.

Lemma run_keeps_witness :
  config ran_engine = config engine /\ instruments ran_engine = instruments engine /\
  created_time ran_engine = created_time engine /\
  time_to_initialize ran_engine = time_to_initialize engine /\
  test_clock ran_engine = test_clock engine /\
  clock_refs ran_engine = clock_refs engine /\
  map logic (strategies ran_engine) = map logic (strategies engine).
Proof.
  apply (run_keeps (C := components) 10 engine 0 2 1 None true Returned
           ran_engine ran_steps).
  vm_compute. reflexivity.
Defined.

Lemma run_replaces_strategy_clocks_witness :
  Forall (fun s => strategy_clock s ∉ dom (clocks engine)) (strategies ran_engine) /\
  (forall k, k <> test_clock engine -> k ∈ dom (clocks engine) ->
             clocks ran_engine !! k = clocks engine !! k).
Proof.
  apply (run_replaces_strategy_clocks (C := components) 10 engine 0 2 1 None
           true ran_engine ran_steps).
  vm_compute. reflexivity.
Defined.

Lemma run_clock_assignments_witness :
  clock_history ran_engine
  = clock_history engine
    ++ 0 :: flat_map (fun st => map Tick_timestamp (step_ticks st)
                                ++ [step_time st]) ran_steps.
Proof.
  apply (run_clock_assignments (C := components) 10 engine 0 2 1 None true
           ran_engine ran_steps).
  vm_compute. reflexivity.
Defined.

End MoreConcrete.
